(** * switch-maintenance: the registry / status-page reconciliation job

    A shallow embedding of [main.py].  The job reads the maintenance windows
    announced by the SWITCH registry, normalises their time stamps to UTC,
    reads the scheduled incidents of a status page, and issues one PATCH or
    POST per relevant window.

    Conventions of the embedding:
    - Python [str] values are [string]s (sequences of 8-bit characters; the
      feed is ASCII);
    - an exception is a value of [exn]; a call that may raise returns
      [result A], and [let*] sequences such calls as Python sequences
      statements;
    - a naive [datetime.datetime] is the number of microseconds of its
      wall-clock reading since 0001-01-01T00:00:00 (its ordinal form); an
      aware one carries the UTC offset of its [tzinfo] as well;
    - what lives in [datetime], [pytz], [requests] or on the remote services
      is taken as an interface ([Class]), instantiated by a small fixture for
      the worked examples. *)

From Stdlib Require Import List String Ascii ZArith Lia Bool Arith.
From Stdlib Require Import DecimalString DecimalPos.
Import ListNotations.

Local Open Scope string_scope.
Local Open Scope Z_scope.

Set Implicit Arguments.

(** ** Exceptions and results *)

(** The exceptions that the program's statements can raise, named as Python
    names them.  Two statements raise [ValueError]; they are told apart by the
    call they come from. *)
Inductive exn : Type :=
| ValueError_min            (* min() arg is an empty sequence *)
| ValueError_strptime       (* time data does not match format *)
| ValueError_fromisoformat  (* Invalid isoformat string *)
| IndexError                (* list index out of range *)
| AttributeError            (* 'str' object has no attribute 'utcoffset' *)
| OverflowError             (* date value out of range *)
| InvalidTimeError          (* pytz: AmbiguousTimeError, NonExistentTimeError *)
| HTTPError.                (* requests' raise_for_status *)

Inductive result (A : Type) : Type :=
| Ok (a : A)
| Raise (e : exn).

Arguments Ok {A} a.
Arguments Raise {A} e.

Definition bind {A B : Type} (r : result A) (k : A -> result B) : result B :=
  match r with
  | Ok a => k a
  | Raise e => Raise e
  end.

Notation "'let*' x ':=' r 'in' k" := (bind r (fun x => k))
  (at level 10, x name, r at level 100, k at level 200).

Definition is_ok {A : Type} (r : result A) : bool :=
  match r with Ok _ => true | Raise _ => false end.

(** ** The Python built-ins the program uses *)

Module Py.

(** [s.upper()] on ASCII text. *)
Definition upper_ascii (c : ascii) : ascii :=
  let n := nat_of_ascii c in
  if ((97 <=? n) && (n <=? 122))%nat then ascii_of_nat (n - 32) else c.

Fixpoint upper (s : string) : string :=
  match s with
  | EmptyString => EmptyString
  | String c s' => String (upper_ascii c) (upper s')
  end.

(** [len(s)] *)
Definition len (s : string) : nat := String.length s.

(** [s.split(sep)] for a non-empty separator: the pieces between the
    non-overlapping occurrences of [sep], scanned from the left; [n] pieces
    for [n - 1] occurrences, so never an empty list.  [cur] holds the piece
    being read, reversed; [skip] counts the characters of a separator still
    to be passed over. *)
Fixpoint rev_string (acc s : string) : string :=
  match s with
  | EmptyString => acc
  | String c s' => rev_string (String c acc) s'
  end.

Fixpoint split_from (sep s cur : string) (skip : nat) : list string :=
  match s with
  | EmptyString => [rev_string EmptyString cur]
  | String c s' =>
      match skip with
      | S k => split_from sep s' cur k
      | O =>
          if String.prefix sep s
          then rev_string EmptyString cur
                 :: split_from sep s' EmptyString (String.length sep - 1)
          else split_from sep s' (String c cur) O
      end
  end.

Definition split (s sep : string) : list string :=
  split_from sep s EmptyString O.

(** [sep.join(l)] *)
Fixpoint join (sep : string) (l : list string) : string :=
  match l with
  | [] => EmptyString
  | [x] => x
  | x :: l' => x ++ sep ++ join sep l'
  end.

(** [s.replace("Z", "+00:00")]: every [Z] is a match of its own. *)
Fixpoint replace_Z (s : string) : string :=
  match s with
  | EmptyString => EmptyString
  | String c s' =>
      if Ascii.eqb c "Z"%char then "+00:00" ++ replace_Z s'
      else String c (replace_Z s')
  end.

(** Negative indices and slices of a list: [l[-2]], [l[:-2]], [l[-1:]]. *)
Definition index_m2 {A : Type} (l : list A) : result A :=
  if (2 <=? List.length l)%nat
  then match nth_error l (List.length l - 2) with
       | Some x => Ok x
       | None => Raise IndexError
       end
  else Raise IndexError.

Definition slice_to_m2 {A : Type} (l : list A) : list A :=
  firstn (List.length l - 2) l.

Definition slice_from_m1 {A : Type} (l : list A) : list A :=
  skipn (List.length l - 1) l.

(** [str(n)] for an [int]: decimal digits, a leading [-] when negative. *)
Definition str (n : Z) : string :=
  NilZero.string_of_int (Z.to_int n).

(** [int(s)] for ASCII text: optional white space on both sides, an
    optional sign, then decimal digits in which single underscores may
    separate digits.  [None] stands for the [ValueError].  The white space
    that [int] passes over in ASCII text is the blank and the characters 9 to
    13 (tab, line feed, vertical tab, form feed, carriage return); the
    separators 28 to 31 are not passed over, and [int] raises on them. *)
Definition is_space (c : ascii) : bool :=
  let n := nat_of_ascii c in
  ((9 <=? n) && (n <=? 13) || (n =? 32))%nat.

Definition digit (c : ascii) : option Z :=
  let n := nat_of_ascii c in
  if ((48 <=? n) && (n <=? 57))%nat then Some (Z.of_nat (n - 48)) else None.

Fixpoint lstrip (s : string) : string :=
  match s with
  | String c s' => if is_space c then lstrip s' else s
  | EmptyString => EmptyString
  end.

Definition strip (s : string) : string :=
  rev_string EmptyString (lstrip (rev_string EmptyString (lstrip s))).

(** [after_digit] says that the previous character was a digit, which is
    where an underscore or the end of the literal may come. *)
Fixpoint digits (s : string) (acc : Z) (after_digit : bool) : option Z :=
  match s with
  | EmptyString => if after_digit then Some acc else None
  | String c s' =>
      match digit c with
      | Some d => digits s' (10 * acc + d) true
      | None =>
          if Ascii.eqb c "_"%char && after_digit
          then digits s' acc false
          else None
      end
  end.

Definition int (s : string) : option Z :=
  match strip s with
  | String "+" s' => digits s' 0 false
  | String "-" s' => option_map Z.opp (digits s' 0 false)
  | s' => digits s' 0 false
  end.

(** [min(iterable, key=key)]: the first element, in iteration order, whose
    key no other element undercuts; [ValueError] on an empty iterable. *)
Fixpoint min_from {A : Type} (key : A -> nat) (best : A) (l : list A) : A :=
  match l with
  | [] => best
  | x :: l' => min_from key (if (key x <? key best)%nat then x else best) l'
  end.

Definition min {A : Type} (l : list A) (key : A -> nat) : result A :=
  match l with
  | [] => Raise ValueError_min
  | x :: l' => Ok (min_from key x l')
  end.

End Py.


(** ** Dates and times *)

(** A [datetime.datetime].  [wall] is the wall-clock reading in microseconds
    since 0001-01-01T00:00:00; [tzoffset] is [None] for a naive value and the
    UTC offset of the attached [tzinfo], in microseconds, for an aware one. *)
Record datetime : Type := {
  wall : Z;
  tzoffset : option Z
}.

(** [datetime.max], 9999-12-31T23:59:59.999999, in the same unit. *)
Definition datetime_max : Z := 3652059 * 86400 * 1000000 - 1.

(** [t - delta] on a naive datetime: [OverflowError] outside
    [datetime.min .. datetime.max]. *)
Definition naive_sub (t delta : Z) : result Z :=
  let r := t - delta in
  if (0 <=? r) && (r <=? datetime_max) then Ok r else Raise OverflowError.

(** [a == b] on datetimes: aware values compare as instants, naive values by
    their reading, and a naive value never equals an aware one. *)
Definition datetime_eqb (a b : datetime) : bool :=
  match tzoffset a, tzoffset b with
  | Some oa, Some ob => wall a - oa =? wall b - ob
  | None, None => wall a =? wall b
  | _, _ => false
  end.

(** A [pytz] zone object.  [transition_info] is the zone's
    [_transition_info] attribute (rows [utcoffset, dstoffset, tzabbrev]),
    absent for zones without transitions; [now_tzname] is
    [datetime.datetime.now(tzone).tzname()]; [utcoffset] is the method applied
    to a naive datetime, which raises on a reading that the zone skips or
    repeats. *)
Record tzinfo : Type := {
  zone : string;
  transition_info : option (list (option Z * option Z * string));
  now_tzname : string;
  utcoffset : Z -> result Z
}.

(** ** The libraries and services around the program *)

(** [pytz]: the list of zone names and the constructor of zone objects. *)
Class Pytz : Type := {
  all_timezones : list string;
  pytz_timezone : string -> tzinfo
}.

(** Iteration over a [set] of zone objects.  Zone objects hash by identity, so
    the order in which a set yields them is not fixed by the program; all that
    is known is that it yields the elements that were added. *)
Class SetOrder : Type := {
  set_iter : list tzinfo -> list tzinfo;
  set_iter_In : forall l z, In z (set_iter l) <-> In z l
}.

(** [datetime]: [strptime] with a format, [fromisoformat] and [isoformat].
    [None] stands for their [ValueError]. *)
Class Datetime : Type := {
  strptime : string -> string -> option Z;
  fromisoformat : string -> option datetime;
  isoformat : datetime -> string
}.

(** ** Domain data *)

Record SWITCHMaintenance : Type := {
  systems : list string;
  environment : string;
  from_time : datetime;
  to_time : datetime;
  reason : string;
  remark : option string
}.

(** An entry of the registry's [availability] array:
    [m["message-type"]] and the fields of [m["message"]["data-message"]]. *)
Record availability_entry : Type := {
  message_type : string;
  dm_concernedSystem : string;
  dm_environment : string;
  dm_from : string;
  dm_to : string;
  dm_reason : string;
  dm_remark : option string
}.

(** A status-page incident as the program reads it: [e["id"]], [e["status"]],
    [e["impact"]], [e["scheduled_for"]].  Such a dict is never empty, so it is
    true in a condition. *)
Record incident : Type := {
  inc_id : string;
  inc_status : string;
  inc_impact : string;
  inc_scheduled_for : string
}.

(** The [incident_data] dict of a write. *)
Record incident_data : Type := {
  scheduled_for : string;
  scheduled_until : string;
  component_ids : list string;
  name : string;
  status : string;
  body : string;
  impact_override : string;
  scheduled_auto_in_progress : bool;
  scheduled_auto_completed : bool;
  auto_transition_to_maintenance_state : bool;
  auto_transition_to_operational_state : bool;
  auto_tweet_on_creation : bool;
  auto_tweet_one_hour_before : bool;
  auto_tweet_at_beginning : bool;
  auto_tweet_on_completion : bool
}.

(** The two writes: [requests.patch] and [requests.post], with the URL, the
    [Authorization] header and the incident wrapped in the JSON body. *)
Inductive request : Type :=
| PATCH (url : string) (authorization : string) (incident_json : incident_data)
| POST (url : string) (authorization : string) (incident_json : incident_data).

(** The contents of [secrets/statuspage.json], which [main] stores in the
    three globals. *)
Record secrets : Type := {
  STATUSPAGE_API_KEY : string;
  STATUSPAGE_PAGE_ID : string;
  STATUSPAGE_COMPONENT_ID : string
}.

(** The remote ends: the registry's answer (already through
    [raise_for_status] and [json()["availability"]]), the status page's answer
    to a GET of a page of scheduled incidents, and its answer to a write. *)
Class Remote : Type := {
  switch_status : result (list availability_entry);
  statuspage_get : Z -> result (list incident);
  statuspage_send : request -> result unit
}.

(** How a call that may loop for ever ends: it returns, raises, or is still
    running when the fuel of the model is spent. *)
Inductive outcome (A : Type) : Type :=
| Returns (a : A)
| Raises (e : exn)
| Running.

Arguments Returns {A} a.
Arguments Raises {A} e.
Arguments Running {A}.

Definition outcome_of {A : Type} (r : result A) : outcome A :=
  match r with
  | Ok a => Returns a
  | Raise e => Raises e
  end.

Definition SWITCH_STATUS_URL : string := "https://status.nic.ch/availability/service/json".
Definition STATUSPAGE_BASE_URL : string := "https://api.statuspage.io/v1".

(** ** The program *)

Section Program.

Context {tzdb : Pytz} {sets : SetOrder} {dt : Datetime} {net : Remote}.

(** What [get_timezone_name] returns: a zone object on two of its paths, a
    [str] on the third. *)
Inductive tz_value : Type :=
| TzInfo (z : tzinfo)
| TzStr (s : string).

(** The rows scanned for a zone:
    [getattr(tzone, '_transition_info', [[None, None, now(tzone).tzname()]])]. *)
Definition transition_rows (tzone : tzinfo) : list (option Z * option Z * string) :=
  match transition_info tzone with
  | Some rows => rows
  | None => [(None, None, now_tzname tzone)]
  end.

(** The inner [for] of the scan: one [set_zones.add(tzone)] per row whose
    abbreviation matches. *)
Definition add_matching (timezone : string) (tzone : tzinfo)
    (set_zones : list tzinfo) : list tzinfo :=
  fold_left
    (fun acc (row : option Z * option Z * string) =>
       let '(_, _, tzabbrev) := row in
       if String.eqb (Py.upper tzabbrev) (Py.upper timezone)
       then (acc ++ [tzone])%list else acc)
    (transition_rows tzone) set_zones.

(** The outer [for]: the sequence of additions to [set_zones]. *)
Definition scan_zones (timezone : string) : list tzinfo :=
  fold_left
    (fun acc name => add_matching timezone (pytz_timezone name) acc)
    all_timezones [].

Definition get_timezone_name (timezone : string) : result tz_value :=
  if existsb (String.eqb timezone) all_timezones
  then Ok (TzInfo (pytz_timezone timezone))
  else
    match Py.int timezone with
    | Some offset =>
        let offset := if 0 <? offset then "+" ++ Py.str offset else Py.str offset in
        Ok (TzStr ("Etc/GMT" ++ offset))
    | None =>
        let set_zones := scan_zones timezone in
        let* z := Py.min (set_iter set_zones) (fun z => Py.len (zone z)) in
        Ok (TzInfo z)
    end.

(** [actual_tz.utcoffset(parsed_ts)]: a [str] has no such method. *)
Definition call_utcoffset (actual_tz : tz_value) (parsed_ts : Z) : result Z :=
  match actual_tz with
  | TzInfo z => utcoffset z parsed_ts
  | TzStr _ => Raise AttributeError
  end.

Definition call_strptime (s fmt : string) : result Z :=
  match strptime s fmt with
  | Some t => Ok t
  | None => Raise ValueError_strptime
  end.

Definition parse_switch_timestamp (ts : string) : result datetime :=
  let parts := Py.split ts " " in
  let* tz := Py.index_m2 parts in
  let* actual_tz := get_timezone_name tz in
  let new_ts := Py.join " " (Py.slice_to_m2 parts ++ Py.slice_from_m1 parts)%list in
  let* parsed_ts := call_strptime new_ts "%a %b %d %H:%M:%S %Y" in
  let* offset := call_utcoffset actual_tz parsed_ts in
  let* shifted := naive_sub parsed_ts offset in
  Ok {| wall := shifted; tzoffset := Some 0 |}.

(** [list(map(f, data))] where [f] may raise: the first exception ends it. *)
Fixpoint map_raising {A B : Type} (f : A -> result B) (l : list A) : result (list B) :=
  match l with
  | [] => Ok []
  | x :: l' =>
      let* y := f x in
      let* ys := map_raising f l' in
      Ok (y :: ys)
  end.

Definition get_switch_maintenance : result (list SWITCHMaintenance) :=
  let* data := switch_status in
  let data := filter (fun m => String.eqb (message_type m) "DATA_MESSAGE") data in
  map_raising
    (fun m =>
       let systems := Py.split (dm_concernedSystem m) ", " in
       let* from_time := parse_switch_timestamp (dm_from m) in
       let* to_time := parse_switch_timestamp (dm_to m) in
       Ok {| systems := systems;
             environment := dm_environment m;
             from_time := from_time;
             to_time := to_time;
             reason := dm_reason m;
             remark := dm_remark m |})
    data.

(** The inner [get_page(page=1)]: the request carries its parameter, which
    the model returns with the answer so that the requests can be traced. *)
Definition get_page (page : Z) : Z * result (list incident) :=
  (page, statuspage_get page).

(** The [while True] of [get_statuspage_maintenance].  The loop calls
    [get_page()], that is with the default argument; its own [page] is
    incremented and carried along.  [requested] lists the [page] parameters
    of the requests made so far. *)
Fixpoint statuspage_loop (fuel : nat) (page : Z) (out : list incident)
    (requested : list Z) : list Z * outcome (list incident) :=
  match fuel with
  | O => (requested, Running)
  | S fuel' =>
      let '(asked, answer) := get_page 1 in
      let requested := (requested ++ [asked])%list in
      match answer with
      | Raise e => (requested, Raises e)
      | Ok new_data =>
          let out := (out ++ new_data)%list in
          if negb (Nat.eqb (List.length new_data) 100)
          then (requested, Returns out)
          else statuspage_loop fuel' (page + 1) out requested
      end
  end.

Definition get_statuspage_maintenance (fuel : nat) : list Z * outcome (list incident) :=
  let '(requested, o) := statuspage_loop fuel 1 [] [] in
  (requested,
   match o with
   | Returns out =>
       Returns (filter (fun e => String.eqb (inc_impact e) "maintenance") out)
   | Raises e => Raises e
   | Running => Running
   end).

(** The inner [for] of [main]: the last incident whose [scheduled_for]
    equals the window's [from_time] stays in [statuspage_m]. *)
Definition call_fromisoformat (s : string) : result datetime :=
  match fromisoformat s with
  | Some d => Ok d
  | None => Raise ValueError_fromisoformat
  end.

Fixpoint scan_incidents (switch_m : SWITCHMaintenance)
    (statuspage_maintenance : list incident) (statuspage_m : option incident)
    : result (option incident) :=
  match statuspage_maintenance with
  | [] => Ok statuspage_m
  | m :: rest =>
      let* scheduled_for :=
        call_fromisoformat (Py.replace_Z (inc_scheduled_for m)) in
      scan_incidents switch_m rest
        (if datetime_eqb scheduled_for (from_time switch_m)
         then Some m else statuspage_m)
  end.

Variable cfg : secrets.

Definition make_incident_data (switch_m : SWITCHMaintenance) : incident_data :=
  {| scheduled_for := isoformat (from_time switch_m);
     scheduled_until := isoformat (to_time switch_m);
     component_ids := [STATUSPAGE_COMPONENT_ID cfg];
     name := "SWITCH Maintenance";
     status := "scheduled";
     body := "The registry for .ch and .li domains will be undergoing maintenance. "
             ++ "Expect an inability to manage, register, or transfer domains with these extensions.";
     impact_override := "maintenance";
     scheduled_auto_in_progress := true;
     scheduled_auto_completed := true;
     auto_transition_to_maintenance_state := true;
     auto_transition_to_operational_state := true;
     auto_tweet_on_creation := true;
     auto_tweet_one_hour_before := true;
     auto_tweet_at_beginning := true;
     auto_tweet_on_completion := true |}.

Definition incidents_url : string :=
  STATUSPAGE_BASE_URL ++ "/pages/" ++ STATUSPAGE_PAGE_ID cfg ++ "/incidents".

Definition incident_url (id : string) : string :=
  STATUSPAGE_BASE_URL ++ "/pages/" ++ STATUSPAGE_PAGE_ID cfg ++ "/incidents/" ++ id.

Definition authorization_header : string := "OAuth " ++ STATUSPAGE_API_KEY cfg.

(** The request that the body of the outer [for] builds once the scan has
    ended with [statuspage_m]. *)
Definition make_request (switch_m : SWITCHMaintenance)
    (statuspage_m : option incident) : request :=
  let incident_data := make_incident_data switch_m in
  match statuspage_m with
  | Some m => PATCH (incident_url (inc_id m)) authorization_header incident_data
  | None => POST incidents_url authorization_header incident_data
  end.

(** The outer [for] of [main]: the requests sent, in order, and how the loop
    ends.  A request whose answer makes [raise_for_status] raise has been
    sent, and is the last. *)
Fixpoint main_loop (switch_maintenance : list SWITCHMaintenance)
    (statuspage_maintenance : list incident) : list request * result unit :=
  match switch_maintenance with
  | [] => ([], Ok tt)
  | switch_m :: rest =>
      match scan_incidents switch_m statuspage_maintenance None with
      | Raise e => ([], Raise e)
      | Ok statuspage_m =>
          let r := make_request switch_m statuspage_m in
          match statuspage_send r with
          | Raise e => ([r], Raise e)
          | Ok _ =>
              let '(sent, res) := main_loop rest statuspage_maintenance in
              (r :: sent, res)
          end
      end
  end.

Definition keep_switch (m : SWITCHMaintenance) : bool :=
  String.eqb (environment m) "production"
  && existsb (String.eqb "epp.nic.ch") (systems m).

Definition keep_statuspage (m : incident) : bool :=
  String.eqb (inc_status m) "scheduled".

(** [main] from the two fetched lists on. *)
Definition reconcile (switch_maintenance : list SWITCHMaintenance)
    (statuspage_maintenance : list incident) : list request * result unit :=
  let switch_maintenance := filter keep_switch switch_maintenance in
  let statuspage_maintenance := filter keep_statuspage statuspage_maintenance in
  main_loop switch_maintenance statuspage_maintenance.

Definition main (fuel : nat) : list request * outcome unit :=
  match get_switch_maintenance with
  | Raise e => ([], Raises e)
  | Ok switch_maintenance =>
      match snd (get_statuspage_maintenance fuel) with
      | Running => ([], Running)
      | Raises e => ([], Raises e)
      | Returns statuspage_maintenance =>
          let '(sent, res) := reconcile switch_maintenance statuspage_maintenance in
          (sent, outcome_of res)
      end
  end.

End Program.

(** ** A fixture for the worked examples

    Instances of the interfaces above, small enough to evaluate: the
    proleptic Gregorian calendar of [datetime], a reading of the one
    [strptime] format of the program in the C locale, ISO-8601 text, and an
    excerpt of the zone database. *)

Module Fixture.

Definition usec : Z := 1000000.
Definition hour : Z := 3600 * usec.
Definition day : Z := 24 * hour.

Definition is_leap (y : Z) : bool :=
  (y mod 4 =? 0) && (negb (y mod 100 =? 0) || (y mod 400 =? 0)).

Definition days_before_year (y : Z) : Z :=
  let y := y - 1 in y * 365 + y / 4 - y / 100 + y / 400.

Definition days_in_month (y m : Z) : Z :=
  if m =? 2 then (if is_leap y then 29 else 28)
  else if (m =? 4) || (m =? 6) || (m =? 9) || (m =? 11) then 30 else 31.

Definition days_before_month (y m : Z) : Z :=
  fold_left (fun acc k => acc + days_in_month y (Z.of_nat k)) (seq 1 (Z.to_nat m - 1)) 0.

(** Days from 0001-01-01 to the given date. *)
Definition days_of (y m d : Z) : Z :=
  days_before_year y + days_before_month y m + (d - 1).

Definition civil (y m d hh mm ss : Z) : Z :=
  days_of y m d * day + ((hh * 60 + mm) * 60 + ss) * usec.

(** The date of a day number, as [datetime] computes it. *)
Definition month_of (y n : Z) : Z * Z :=
  fold_left
    (fun (acc : Z * Z) k =>
       let '(m, r) := acc in
       if (m =? Z.of_nat k) && (days_in_month y m <=? r)
       then (m + 1, r - days_in_month y m) else acc)
    (seq 1 11) (1, n).

Definition date_of (n : Z) : Z * Z * Z :=
  let n400 := n / 146097 in
  let n := n mod 146097 in
  let n100 := n / 36524 in
  let n := n mod 36524 in
  let n4 := n / 1461 in
  let n := n mod 1461 in
  let n1 := n / 365 in
  let n := n mod 365 in
  let y := n400 * 400 + 1 + n100 * 100 + n4 * 4 + n1 in
  if (n1 =? 4) || (n100 =? 4) then (y - 1, 12, 31)
  else let '(m, r) := month_of y n in (y, m, r + 1).

(** Decimal fields of fixed or bounded width. *)
Fixpoint all_digits (s : string) : bool :=
  match s with
  | EmptyString => true
  | String c s' =>
      match Py.digit c with Some _ => all_digits s' | None => false end
  end.

Definition field (min_len max_len : nat) (lo hi : Z) (s : string) : option Z :=
  if all_digits s
     && (min_len <=? String.length s)%nat && (String.length s <=? max_len)%nat
  then match Py.digits s 0 false with
       | Some v => if (lo <=? v) && (v <=? hi) then Some v else None
       | None => None
       end
  else None.

Fixpoint zeros (n : nat) : string :=
  match n with
  | O => ""
  | S k => "0" ++ zeros k
  end.

Definition fixed (width : nat) (v : Z) : string :=
  zeros (width - String.length (Py.str v)) ++ Py.str v.

Fixpoint position (s : string) (l : list string) (k : Z) : option Z :=
  match l with
  | [] => None
  | x :: l' => if String.eqb (Py.upper x) (Py.upper s) then Some k else position s l' (k + 1)
  end.

Definition weekdays : list string := ["Mon"; "Tue"; "Wed"; "Thu"; "Fri"; "Sat"; "Sun"].

Definition months : list string :=
  ["Jan"; "Feb"; "Mar"; "Apr"; "May"; "Jun"; "Jul"; "Aug"; "Sep"; "Oct"; "Nov"; "Dec"].

Definition nonempty (s : string) : bool := negb (String.eqb s "").

(** [strptime(s, "%a %b %d %H:%M:%S %Y")] in the C locale: names without
    regard to case, one or more blanks between fields, nothing before or
    after; the day must exist in the month, the weekday is not checked against
    the date.  No other format is known to the fixture. *)
Definition strptime (s fmt : string) : option Z :=
  if negb (String.eqb fmt "%a %b %d %H:%M:%S %Y") then None else
  let parts := Py.split s " " in
  if negb (nonempty (hd "" parts) && nonempty (last parts "")) then None else
  match filter nonempty parts with
  | [a; b; d; hms; y] =>
      match position a weekdays 0, position b months 1,
            field 1 2 1 31 d, Py.split hms ":", field 4 4 1 9999 y with
      | Some _, Some m, Some d, [hh; mm; ss], Some y =>
          match field 1 2 0 23 hh, field 1 2 0 59 mm, field 1 2 0 59 ss with
          | Some hh, Some mm, Some ss =>
              if d <=? days_in_month y m then Some (civil y m d hh mm ss) else None
          | _, _, _ => None
          end
      | _, _, _, _, _ => None
      end
  | _ => None
  end.

(** ISO-8601 text: [YYYY-MM-DDTHH:MM:SS], an optional fraction of three or six
    digits, an optional offset [+HH:MM] or [-HH:MM]. *)
Definition offset_of_text (s : string) : option (option Z) :=
  match s with
  | EmptyString => Some None
  | String sign rest =>
      match Py.split rest ":" with
      | [hh; mm] =>
          match field 2 2 0 23 hh, field 2 2 0 59 mm with
          | Some hh, Some mm =>
              let v := (hh * 60 + mm) * 60 * usec in
              if Ascii.eqb sign "+" then Some (Some v)
              else if Ascii.eqb sign "-" then Some (Some (- v))
              else None
          | _, _ => None
          end
      | _ => None
      end
  end.

Definition fraction_of_text (s : string) : option Z :=
  match s with
  | EmptyString => Some 0
  | String "." f =>
      match field 3 3 0 999 f, field 6 6 0 999999 f with
      | Some ms, _ => Some (ms * 1000)
      | None, Some us => Some us
      | None, None => None
      end
  | _ => None
  end.

Definition fromisoformat (s : string) : option datetime :=
  let date := String.substring 0 10 s in
  let time := String.substring 11 8 s in
  let rest := String.substring 19 (String.length s - 19) s in
  let frac_len := match rest with
                  | String "." f =>
                      if all_digits (String.substring 0 6 f) && (6 <=? String.length f)%nat
                      then 7%nat else 4%nat
                  | _ => 0%nat
                  end in
  let frac := String.substring 0 frac_len rest in
  let off := String.substring frac_len (String.length rest - frac_len) rest in
  if negb (19 <=? String.length s)%nat then None else
  match Py.split date "-", String.get 10 s, Py.split time ":" with
  | [y; m; d], Some "T"%char, [hh; mm; ss] =>
      match field 4 4 1 9999 y, field 2 2 1 12 m, field 2 2 1 31 d,
            field 2 2 0 23 hh, field 2 2 0 59 mm, field 2 2 0 59 ss,
            fraction_of_text frac, offset_of_text off with
      | Some y, Some m, Some d, Some hh, Some mm, Some ss, Some us, Some off =>
          if d <=? days_in_month y m
          then Some {| wall := civil y m d hh mm ss + us; tzoffset := off |}
          else None
      | _, _, _, _, _, _, _, _ => None
      end
  | _, _, _ => None
  end.

Definition isoformat (d : datetime) : string :=
  let '(y, m, dd) := date_of (wall d / day) in
  let r := wall d mod day in
  let us := r mod usec in
  let s := r / usec in
  fixed 4 y ++ "-" ++ fixed 2 m ++ "-" ++ fixed 2 dd ++ "T"
  ++ fixed 2 (s / 3600) ++ ":" ++ fixed 2 (s / 60 mod 60) ++ ":" ++ fixed 2 (s mod 60)
  ++ (if us =? 0 then "" else "." ++ fixed 6 us)
  ++ match tzoffset d with
     | None => ""
     | Some o =>
         let a := Z.abs o / (60 * usec) in
         (if o <? 0 then "-" else "+") ++ fixed 2 (a / 60) ++ ":" ++ fixed 2 (a mod 60)
     end.

Definition datetime_lib : Datetime :=
  Build_Datetime strptime fromisoformat isoformat.

(** Zones.  Central European time follows the rule of the European Union in
    force since 1996: summer time from the last Sunday of March to the last
    Sunday of October, the change at 01:00 UTC.  A reading in the hour that is
    skipped or in the hour that is read twice has no single offset. *)
Definition weekday (n : Z) : Z := n mod 7.

Definition last_sunday (y m : Z) : Z :=
  31 - (weekday (days_of y m 31) + 1) mod 7.

Definition eu_utcoffset (t : Z) : result Z :=
  let '(y, _, _) := date_of (t / day) in
  let start := civil y 3 (last_sunday y 3) 2 0 0 in
  let stop := civil y 10 (last_sunday y 10) 2 0 0 in
  if (t <? start) || (stop + hour <=? t) then Ok hour
  else if (start + hour <=? t) && (t <? stop) then Ok (2 * hour)
  else Raise InvalidTimeError.

Definition cet_rows : list (option Z * option Z * string) :=
  [(Some hour, Some 0, "CET"); (Some (2 * hour), Some hour, "CEST");
   (Some hour, Some 0, "CET")].

Definition CET : tzinfo :=
  {| zone := "CET"; transition_info := Some cet_rows;
     now_tzname := "CEST"; utcoffset := eu_utcoffset |}.

Definition Europe_Zurich : tzinfo :=
  {| zone := "Europe/Zurich";
     transition_info :=
       Some ((Some (2048 * usec), Some 0, "LMT")
             :: (Some (1786 * usec), Some 0, "BMT") :: cet_rows);
     now_tzname := "CEST"; utcoffset := eu_utcoffset |}.

Definition china_rows : list (option Z * option Z * string) :=
  [(Some (8 * hour), Some 0, "CST"); (Some (9 * hour), Some hour, "CDT");
   (Some (8 * hour), Some 0, "CST")].

Definition PRC : tzinfo :=
  {| zone := "PRC"; transition_info := Some china_rows;
     now_tzname := "CST"; utcoffset := fun _ => Ok (8 * hour) |}.

Definition ROC : tzinfo :=
  {| zone := "ROC"; transition_info := Some china_rows;
     now_tzname := "CST"; utcoffset := fun _ => Ok (8 * hour) |}.

Definition UTC : tzinfo :=
  {| zone := "UTC"; transition_info := None;
     now_tzname := "UTC"; utcoffset := fun _ => Ok 0 |}.

Definition zones : list tzinfo := [CET; Europe_Zurich; PRC; ROC; UTC].

(** [pytz.timezone]; the program calls it on listed names only. *)
Definition timezone (name : string) : tzinfo :=
  match find (fun z => String.eqb (zone z) name) zones with
  | Some z => z
  | None => UTC
  end.

Definition pytz_lib : Pytz := Build_Pytz (map zone zones) timezone.

(** Two orders in which a set may yield what was added to it. *)
Definition as_added : SetOrder :=
  Build_SetOrder (fun l => l) (fun l z => iff_refl (In z l)).

Definition reversed : SetOrder :=
  Build_SetOrder (@rev tzinfo) (fun l z => iff_sym (in_rev l z)).

(** Remote ends: a registry answer, status pages by number, and a status page
    that accepts every write. *)
Definition remote (entries : list availability_entry)
    (pages : Z -> list incident) : Remote :=
  Build_Remote (Ok entries) (fun page => Ok (pages page)) (fun _ => Ok tt).

Definition epp_entry (from to : string) : availability_entry :=
  {| message_type := "DATA_MESSAGE";
     dm_concernedSystem := "epp.nic.ch, rdap.nic.ch";
     dm_environment := "production";
     dm_from := from; dm_to := to;
     dm_reason := "Maintenance"; dm_remark := None |}.

Definition july_entry : availability_entry :=
  epp_entry "Mon Jul 01 10:00:00 CEST 2024" "Mon Jul 01 12:00:00 CEST 2024".

Definition scheduled (id when impact : string) : incident :=
  {| inc_id := id; inc_status := "scheduled";
     inc_impact := impact; inc_scheduled_for := when |}.

Definition one_page (l : list incident) (page : Z) : list incident :=
  if page =? 1 then l else [].

(** A first page that is exactly full, and nothing after it. *)
Definition full_first_page (page : Z) : list incident :=
  if page =? 1
  then repeat (scheduled "x" "2030-01-01T00:00:00.000Z" "maintenance") 100
  else [].

Definition keys : secrets :=
  {| STATUSPAGE_API_KEY := "k"; STATUSPAGE_PAGE_ID := "p";
     STATUSPAGE_COMPONENT_ID := "c" |}.

(** A status page that refuses every write. *)
Definition refusing : Remote :=
  Build_Remote (Ok []) (fun _ => Ok []) (fun _ => Raise HTTPError).

(** Windows, as [get_switch_maintenance] builds them. *)
Definition utc (y m d hh mm ss : Z) : datetime :=
  {| wall := civil y m d hh mm ss; tzoffset := Some 0 |}.

Definition window (systems : list string) (environment : string)
    (from_time to_time : datetime) : SWITCHMaintenance :=
  {| systems := systems; environment := environment;
     from_time := from_time; to_time := to_time;
     reason := "Maintenance"; remark := None |}.

Definition july_window : SWITCHMaintenance :=
  window ["epp.nic.ch"; "rdap.nic.ch"] "production"
    (utc 2024 7 1 8 0 0) (utc 2024 7 1 10 0 0).

Definition august_window : SWITCHMaintenance :=
  window ["epp.nic.ch"] "production" (utc 2024 8 5 6 0 0) (utc 2024 8 5 7 0 0).

Definition test_window : SWITCHMaintenance :=
  window ["epp.nic.ch"] "test" (utc 2024 7 1 8 0 0) (utc 2024 7 1 10 0 0).

Definition rdap_window : SWITCHMaintenance :=
  window ["rdap.nic.ch"; "whois.nic.ch"] "production"
    (utc 2024 7 1 8 0 0) (utc 2024 7 1 10 0 0).

(** Incidents: two that start with the July window (the second written with
    another offset), one that starts with no window, one of another impact,
    one that is no longer scheduled, and the August incident as the status
    page reports it once created. *)
Definition july_a : incident := scheduled "abc" "2024-07-01T08:00:00.000Z" "maintenance".
Definition july_b : incident := scheduled "def" "2024-07-01T10:00:00+02:00" "maintenance".
Definition september : incident := scheduled "ghi" "2024-09-02T06:00:00.000Z" "maintenance".
Definition july_outage : incident := scheduled "jkl" "2024-07-01T08:00:00.000Z" "major".
Definition july_done : incident :=
  {| inc_id := "mno"; inc_status := "completed";
     inc_impact := "maintenance"; inc_scheduled_for := "2024-07-01T08:00:00.000Z" |}.
Definition august_created : incident :=
  scheduled "pqr" "2024-08-05T06:00:00.000Z" "maintenance".

End Fixture.

(** ** Vocabulary of the specification *)

Section Vocabulary.

Context {tzdb : Pytz} {dt : Datetime}.

(** A zone has used the abbreviation: some row scanned for it carries it, up
    to case. *)
Definition uses_abbreviation (timezone : string) (tzone : tzinfo) : bool :=
  existsb
    (fun row : option Z * option Z * string =>
       String.eqb (Py.upper (snd row)) (Py.upper timezone))
    (transition_rows tzone).

(** The start of an incident, read as the program reads it. *)
Definition parsed_start (m : incident) : option datetime :=
  fromisoformat (Py.replace_Z (inc_scheduled_for m)).

Definition readable (m : incident) : bool :=
  match parsed_start m with Some _ => true | None => false end.

(** The incident and the window are the same event: equal starts. *)
Definition starts_at (w : SWITCHMaintenance) (m : incident) : bool :=
  match parsed_start m with
  | Some d => datetime_eqb d (from_time w)
  | None => false
  end.

(** Two incidents start at the same instant. *)
Definition same_start (m m' : incident) : bool :=
  match parsed_start m, parsed_start m' with
  | Some d, Some d' => datetime_eqb d d'
  | _, _ => false
  end.

(** The specification's reconciler, in its words: the last incident, in
    iteration order, whose start equals the window's. *)
Definition last_match (w : SWITCHMaintenance) (incidents : list incident)
    : option incident :=
  last (map Some (filter (starts_at w) incidents)) None.

Inductive write_intent : Type :=
| Create (payload : incident_data)
| Update (incidentId : string) (payload : incident_data).

(** The HTTP request that carries an intent. *)
Definition request_of (cfg : secrets) (i : write_intent) : request :=
  match i with
  | Create p => POST (incidents_url cfg) (authorization_header cfg) p
  | Update id p => PATCH (incident_url cfg id) (authorization_header cfg) p
  end.

(** The payload that the specification asks for a window. *)
Definition payload_for (cfg : secrets) (w : SWITCHMaintenance) (p : incident_data) : Prop :=
  scheduled_for p = isoformat (from_time w)
  /\ scheduled_until p = isoformat (to_time w)
  /\ component_ids p = [STATUSPAGE_COMPONENT_ID cfg]
  /\ name p = "SWITCH Maintenance"
  /\ status p = "scheduled"
  /\ body p = "The registry for .ch and .li domains will be undergoing maintenance. Expect an inability to manage, register, or transfer domains with these extensions."
  /\ impact_override p = "maintenance"
  /\ scheduled_auto_in_progress p = true
  /\ scheduled_auto_completed p = true
  /\ auto_transition_to_maintenance_state p = true
  /\ auto_transition_to_operational_state p = true
  /\ auto_tweet_on_creation p = true
  /\ auto_tweet_one_hour_before p = true
  /\ auto_tweet_at_beginning p = true
  /\ auto_tweet_on_completion p = true.

Definition is_patch (r : request) : bool :=
  match r with PATCH _ _ _ => true | POST _ _ _ => false end.

(** The text of a start reads back as the same instant. *)
Definition reads_back (d : datetime) : bool :=
  match fromisoformat (isoformat d) with
  | Some d' => datetime_eqb d' d
  | None => false
  end.

(** The start of an incident and a payload's [scheduled_for] are the same
    instant. *)
Definition scheduled_as (m : incident) (p : incident_data) : bool :=
  match parsed_start m, fromisoformat (scheduled_for p) with
  | Some d, Some d' => datetime_eqb d d'
  | _, _ => false
  end.

(** The text handed to [strptime]: the time stamp without its zone token,
    [" ".join(parts[:-2] + parts[-1:])]. *)
Definition new_ts_of (ts : string) : string :=
  let parts := Py.split ts " " in
  Py.join " " (Py.slice_to_m2 parts ++ Py.slice_from_m1 parts)%list.

Definition switch_format : string := "%a %b %d %H:%M:%S %Y".

(** The zone name behind a resolution, for comparing results. *)
Definition resolved_name (r : result tz_value) : result string :=
  let* v := r in
  Ok match v with
     | TzInfo z => zone z
     | TzStr s => s
     end.

End Vocabulary.

(** ** Further vocabulary *)

(** The character does not occur in the text. *)
Fixpoint free_of (c : ascii) (s : string) : bool :=
  match s with
  | EmptyString => true
  | String a s' => negb (Ascii.eqb a c) && free_of c s'
  end.

(** The text has no white space, as [int] sees white space. *)
Fixpoint no_space (s : string) : bool :=
  match s with
  | EmptyString => true
  | String a s' => negb (Py.is_space a) && no_space s'
  end.

(** The text that [get_timezone_name] writes after [Etc/GMT] for the
    integer [offset]: ['+' + str(offset)] when positive, [str(offset)]
    otherwise. *)
Definition offset_text (offset : Z) : string :=
  if 0 <? offset then "+" ++ Py.str offset else Py.str offset.

(** The entries that [get_switch_maintenance] keeps. *)
Definition is_data_message (m : availability_entry) : bool :=
  String.eqb (message_type m) "DATA_MESSAGE".

(** ** The request to the registry

    The head of [get_switch_maintenance]: the query runs from today to the
    same day of the next year.  The calendar is the one of the fixture, which
    is that of [datetime.date]. *)

Record date : Type := {
  year : Z;
  month : Z;
  day : Z
}.

(** The dates that [datetime.date] can hold. *)
Definition date_ok (d : date) : bool :=
  (1 <=? year d) && (year d <=? 9999)
  && (1 <=? month d) && (month d <=? 12)
  && (1 <=? day d) && (day d <=? Fixture.days_in_month (year d) (month d)).

(** [d.replace(year=y)]; [None] stands for the [ValueError] of a date that
    does not exist. *)
Definition replace_year (d : date) (y : Z) : option date :=
  let d' := {| year := y; month := month d; day := day d |} in
  if date_ok d' then Some d' else None.

(** [d.strftime("%d-%m-%Y")] (four digits from the year 1000 on). *)
Definition strftime_dmY (d : date) : string :=
  Fixture.fixed 2 (day d) ++ "-" ++ Fixture.fixed 2 (month d) ++ "-"
  ++ Fixture.fixed 4 (year d).

(** The [params] of the GET. *)
Record status_params : Type := {
  param_environment : string;
  param_start : string;
  param_end : string
}.

Definition switch_status_params (today : date) : option status_params :=
  match replace_year today (year today + 1) with
  | Some today_next_year =>
      Some {| param_environment := "production";
              param_start := strftime_dmY today;
              param_end := strftime_dmY today_next_year |}
  | None => None
  end.

(** A call of [get_switch_maintenance] on a given day: either the
    [ValueError] of [replace] ends it before the request, or the request is
    sent with its parameters and the call goes on with the answer. *)
Inductive registry_call : Type :=
| NotSent
| Sent (params : status_params) (value : result (list SWITCHMaintenance)).

Section RegistryRequest.

Context {tzdb : Pytz} {sets : SetOrder} {dt : Datetime} {net : Remote}.

Definition get_switch_maintenance_on (today : date) : registry_call :=
  match switch_status_params today with
  | None => NotSent
  | Some params => Sent params get_switch_maintenance
  end.

End RegistryRequest.

(** The window that an entry of the registry gives:
    the fields set by [get_switch_maintenance]. *)
Section Built.

Context {tzdb : Pytz} {sets : SetOrder} {dt : Datetime}.

Definition built_from (m : availability_entry) (w : SWITCHMaintenance) : Prop :=
  systems w = Py.split (dm_concernedSystem m) ", "
  /\ environment w = dm_environment m
  /\ parse_switch_timestamp (dm_from m) = Ok (from_time w)
  /\ parse_switch_timestamp (dm_to m) = Ok (to_time w)
  /\ reason w = dm_reason m
  /\ remark w = dm_remark m.

(** An instant as the parser returns them: tagged UTC, within the range of
    [datetime]. *)
Definition utc_instant (d : datetime) : Prop :=
  tzoffset d = Some 0 /\ 0 <= wall d <= datetime_max.

End Built.

(** ** Further cases for the worked examples *)

Module Cases.

(** An entry of another type, with time stamps that are none. *)
Definition notice : availability_entry :=
  {| message_type := "INFO_MESSAGE";
     dm_concernedSystem := ""; dm_environment := "production";
     dm_from := "soon"; dm_to := "later";
     dm_reason := "Notice"; dm_remark := None |}.

(** An entry whose end is no time stamp. *)
Definition open_ended : availability_entry :=
  Fixture.epp_entry "Mon Aug 05 08:00:00 CEST 2024" "tomorrow".

(** A status page that accepts updates and refuses creations. *)
Definition refusing_creations : Remote :=
  Build_Remote (Ok []) (fun _ => Ok [])
    (fun r => if is_patch r then Ok tt else Raise HTTPError).

(** A scheduled incident whose start is no ISO-8601 text. *)
Definition undated : incident :=
  Fixture.scheduled "stu" "tomorrow" "maintenance".

Definition leap_day : date := {| year := 2024; month := 2; day := 29 |}.

Definition first_of_july : date := {| year := 2024; month := 7; day := 1 |}.

End Cases.

(** * Properties *)

(** ** Results *)

Lemma bind_Ok {A B : Type} (r : result A) (k : A -> result B) (b : B) :
  bind r k = Ok b -> exists a, r = Ok a /\ k a = Ok b.
Proof.
  destruct r as [a|e]; simpl; intros H; [eauto | discriminate].
Qed.

Lemma bind_Raise {A B : Type} (r : result A) (k : A -> result B) (e : exn) :
  r = Raise e -> bind r k = Raise e.
Proof. intros ->. reflexivity. Qed.

(** ** [min] *)

Section MinFacts.

Variable A : Type.
Variable key : A -> nat.

Lemma min_from_In (l : list A) (best : A) :
  Py.min_from key best l = best \/ In (Py.min_from key best l) l.
Proof.
  revert best. induction l as [|x l IH]; intros best; simpl.
  - now left.
  - destruct (IH (if (key x <? key best)%nat then x else best)) as [H|H].
    + rewrite H. destruct (key x <? key best)%nat; auto.
    + auto.
Qed.

Lemma min_from_le_best (l : list A) (best : A) :
  (key (Py.min_from key best l) <= key best)%nat.
Proof.
  revert best. induction l as [|x l IH]; intros best; simpl.
  - lia.
  - specialize (IH (if (key x <? key best)%nat then x else best)).
    destruct (Nat.ltb_spec (key x) (key best)); lia.
Qed.

Lemma min_from_le (l : list A) (best x : A) :
  In x l -> (key (Py.min_from key best l) <= key x)%nat.
Proof.
  revert best. induction l as [|y l IH]; intros best; simpl.
  - contradiction.
  - intros [->|H].
    + pose proof (min_from_le_best l (if (key x <? key best)%nat then x else best)) as Hle.
      destruct (Nat.ltb_spec (key x) (key best)); lia.
    + now apply IH.
Qed.

Lemma min_empty (l : list A) :
  l = [] <-> Py.min l key = Raise ValueError_min.
Proof.
  destruct l; simpl; split; intros H; try reflexivity; discriminate.
Qed.

Lemma min_Ok (l : list A) (a : A) :
  Py.min l key = Ok a -> In a l /\ forall x, In x l -> (key a <= key x)%nat.
Proof.
  destruct l as [|b l]; simpl; [discriminate|].
  intros [= <-]. split.
  - destruct (min_from_In l b) as [->|H]; auto.
  - intros x [->|H].
    + apply min_from_le_best.
    + now apply min_from_le.
Qed.

Lemma min_nonempty (l : list A) :
  l <> [] -> exists a, Py.min l key = Ok a.
Proof.
  destruct l as [|b l]; [congruence|]. simpl. eauto.
Qed.

(** [min] returns the first of the elements of least key: every element
    before it has a greater key, and no element after it has a lesser one. *)
Lemma min_from_first (l : list A) (best : A) :
  (Py.min_from key best l = best
   /\ forall x, In x l -> (key best <= key x)%nat)
  \/ exists before after,
       l = (before ++ Py.min_from key best l :: after)%list
       /\ (key (Py.min_from key best l) < key best)%nat
       /\ (forall x, In x before -> (key (Py.min_from key best l) < key x)%nat)
       /\ (forall x, In x after -> (key (Py.min_from key best l) <= key x)%nat).
Proof.
  revert best. induction l as [|y l IH]; intros best.
  - left. split; [reflexivity | intros x []].
  - simpl Py.min_from.
    destruct (Nat.ltb_spec (key y) (key best)) as [Hlt|Hge].
    + right. destruct (IH y) as [[Hr Hall]|(b & a & Hl & Hk & Hb & Ha)].
      * exists [], l. rewrite Hr. simpl.
        repeat split; [assumption | intros x [] | exact Hall].
      * exists (y :: b), a. simpl. rewrite <- Hl.
        repeat split; [lia | | exact Ha].
        intros x [<-|Hx]; [exact Hk | now apply Hb].
    + destruct (IH best) as [[Hr Hall]|(b & a & Hl & Hk & Hb & Ha)].
      * left. split; [exact Hr|]. intros x [<-|Hx]; [exact Hge | now apply Hall].
      * right. exists (y :: b), a. simpl. rewrite <- Hl.
        repeat split; [exact Hk | | exact Ha].
        intros x [<-|Hx]; [lia | now apply Hb].
Qed.

Lemma min_first (l : list A) (a : A) :
  Py.min l key = Ok a ->
  exists before after,
    l = (before ++ a :: after)%list
    /\ (forall x, In x before -> (key a < key x)%nat)
    /\ (forall x, In x after -> (key a <= key x)%nat).
Proof.
  destruct l as [|b l]; simpl; [discriminate|].
  intros [= <-].
  destruct (min_from_first l b) as [[Hr Hall]|(before & after & Hl & Hk & Hb & Ha)].
  - exists [], l. rewrite Hr. simpl. repeat split; [intros x [] | exact Hall].
  - exists (b :: before), after. simpl. rewrite <- Hl.
    repeat split; [|exact Ha].
    intros x [<-|Hx]; [exact Hk | now apply Hb].
Qed.

(** When one element alone has the least key, [min] returns it, in whatever
    order the elements come. *)
Lemma min_unique (l : list A) (a : A) :
  In a l ->
  (forall x, In x l -> (key a <= key x)%nat) ->
  (forall x, In x l -> key x = key a -> x = a) ->
  Py.min l key = Ok a.
Proof.
  intros Hin Hle Huniq.
  destruct (min_nonempty (l := l)) as [b Hb].
  { intros ->. contradiction. }
  destruct (min_Ok _ Hb) as [Hbin Hble].
  rewrite Hb. f_equal. apply Huniq; [assumption|].
  specialize (Hle b Hbin). specialize (Hble a Hin). lia.
Qed.

End MinFacts.

(** ** The timezone resolver *)

Section Resolver.

Context {tzdb : Pytz} {sets : SetOrder} {dt : Datetime}.

Lemma add_matching_In (timezone : string) (tzone : tzinfo) (acc : list tzinfo) (z : tzinfo) :
  In z (add_matching timezone tzone acc)
  <-> In z acc \/ (z = tzone /\ uses_abbreviation timezone tzone = true).
Proof.
  unfold add_matching, uses_abbreviation.
  generalize (transition_rows tzone) as rows. intros rows. revert acc.
  induction rows as [|[[u d] a] rows IH]; intros acc; simpl.
  - split; [auto | intros [H|[_ H]]; [assumption | discriminate]].
  - rewrite IH. destruct (String.eqb (Py.upper a) (Py.upper timezone)); simpl.
    + rewrite in_app_iff. simpl. split.
      * intros [[H|[H|[]]]|[H _]]; auto.
      * intros [H|[H _]]; auto.
    + reflexivity.
Qed.

Lemma scan_zones_from_In (timezone : string) (names : list string) (acc : list tzinfo) (z : tzinfo) :
  In z (fold_left (fun acc name => add_matching timezone (pytz_timezone name) acc) names acc)
  <-> In z acc
      \/ exists name, In name names /\ z = pytz_timezone name
                      /\ uses_abbreviation timezone z = true.
Proof.
  revert acc. induction names as [|n names IH]; intros acc; simpl.
  - split; [auto | intros [H|(n & [] & _)]; assumption].
  - rewrite IH, add_matching_In. split.
    + intros [[H|[-> H]]|(n' & Hin & Hz & Hu)]; eauto 7.
    + intros [H|(n' & [->|Hin] & Hz & Hu)]; subst; eauto 7.
Qed.

(** The zones added to [set_zones] are the listed zones that have used the
    abbreviation. *)
Lemma scan_zones_In (timezone : string) (z : tzinfo) :
  In z (scan_zones timezone)
  <-> exists name, In name all_timezones /\ z = pytz_timezone name
                   /\ uses_abbreviation timezone z = true.
Proof.
  unfold scan_zones. rewrite scan_zones_from_In. simpl.
  split; [intros [[]|H]; exact H | auto].
Qed.

Lemma get_timezone_name_listed (timezone : string) :
  existsb (String.eqb timezone) all_timezones = true ->
  get_timezone_name timezone = Ok (TzInfo (pytz_timezone timezone)).
Proof. unfold get_timezone_name. intros ->. reflexivity. Qed.

Lemma get_timezone_name_int (timezone : string) (n : Z) :
  existsb (String.eqb timezone) all_timezones = false ->
  Py.int timezone = Some n ->
  get_timezone_name timezone
  = Ok (TzStr ("Etc/GMT" ++ (if 0 <? n then "+" ++ Py.str n else Py.str n))).
Proof. unfold get_timezone_name. intros -> ->. reflexivity. Qed.

Lemma get_timezone_name_abbreviation (timezone : string) :
  existsb (String.eqb timezone) all_timezones = false ->
  Py.int timezone = None ->
  get_timezone_name timezone
  = let* z := Py.min (set_iter (scan_zones timezone)) (fun z => Py.len (zone z)) in
    Ok (TzInfo z).
Proof. unfold get_timezone_name. intros -> ->. reflexivity. Qed.

(** A resolution that is a [str] stops the parser: the text after the token
    either fails the pattern or reaches the call of [utcoffset]. *)
Lemma parse_switch_timestamp_str (ts tz s : string) :
  Py.index_m2 (Py.split ts " ") = Ok tz ->
  get_timezone_name tz = Ok (TzStr s) ->
  parse_switch_timestamp ts = Raise ValueError_strptime
  \/ parse_switch_timestamp ts = Raise AttributeError.
Proof.
  intros Htz Hres. unfold parse_switch_timestamp.
  rewrite Htz. simpl. rewrite Hres. simpl.
  unfold call_strptime. destruct (strptime _ _); simpl; auto.
Qed.

(** C2. A token that is no listed zone name and reads as the integer [n] is
    resolved to the text [Etc/GMT] followed by [n] with its sign ([+] when
    positive), and to nothing more than that text: no zone object is made of
    it, so no time stamp that carries such a token is parsed; the parser
    raises, at the latest where it asks the resolution for a UTC offset. *)
Theorem numeric_token_resolves_to_text (ts timezone : string) (n : Z) :
  existsb (String.eqb timezone) all_timezones = false ->
  Py.int timezone = Some n ->
  Py.index_m2 (Py.split ts " ") = Ok timezone ->
  get_timezone_name timezone
  = Ok (TzStr ("Etc/GMT" ++ (if 0 <? n then "+" ++ Py.str n else Py.str n)))
  /\ (forall t, call_utcoffset
                  (TzStr ("Etc/GMT" ++ (if 0 <? n then "+" ++ Py.str n else Py.str n))) t
                = Raise AttributeError)
  /\ (parse_switch_timestamp ts = Raise ValueError_strptime
      \/ parse_switch_timestamp ts = Raise AttributeError).
Proof.
  intros Hno Hint Htz.
  pose proof (get_timezone_name_int _ Hno Hint) as Hres.
  split; [exact Hres|]. split; [reflexivity|].
  exact (parse_switch_timestamp_str _ Htz Hres).
Qed.

(** C6. A token that is no listed zone name, no integer, and an abbreviation
    of no listed zone makes the resolver raise (the [ValueError] of [min] on
    the empty set of candidates); no zone is returned in its place, and every
    time stamp whose zone token it is makes the parser raise the same. *)
Theorem unresolvable_token_raises (timezone : string) :
  existsb (String.eqb timezone) all_timezones = false ->
  Py.int timezone = None ->
  (forall name, In name all_timezones ->
     uses_abbreviation timezone (pytz_timezone name) = false) ->
  get_timezone_name timezone = Raise ValueError_min
  /\ forall ts, Py.index_m2 (Py.split ts " ") = Ok timezone ->
                parse_switch_timestamp ts = Raise ValueError_min.
Proof.
  intros Hno Hint Hnone.
  assert (Hres : get_timezone_name timezone = Raise ValueError_min).
  { rewrite (get_timezone_name_abbreviation _ Hno Hint).
    destruct (set_iter (scan_zones timezone)) as [|z l] eqn:Hl; [reflexivity|].
    assert (Hz : In z (scan_zones timezone)).
    { apply (proj1 (set_iter_In _ _)). rewrite Hl. now left. }
    apply (proj1 (scan_zones_In _ _)) in Hz. destruct Hz as (name & Hin & -> & Huse).
    rewrite (Hnone _ Hin) in Huse. discriminate. }
  split; [exact Hres|].
  intros ts Htz. unfold parse_switch_timestamp.
  rewrite Htz. simpl. rewrite Hres. reflexivity.
Qed.

End Resolver.

(** C4, as the code has it.  A token that is no listed zone name and no
    integer, and that some listed zone has used as an abbreviation, is
    resolved to one of the zones that have used it, and no such zone has a
    shorter name.  Among the candidates of that least length it is the first
    in the order in which the set of candidates is iterated: every candidate
    that the set yields before it has a longer name.  When that zone is the
    only one of its length among the candidates, the result is the same under
    every order in which the set may be iterated. *)
Theorem abbreviation_resolves_to_a_shortest_zone
    {tzdb : Pytz} {sets : SetOrder} (timezone : string) :
  existsb (String.eqb timezone) all_timezones = false ->
  Py.int timezone = None ->
  (exists name, In name all_timezones
                /\ uses_abbreviation timezone (pytz_timezone name) = true) ->
  exists z,
    get_timezone_name timezone = Ok (TzInfo z)
    /\ (exists name, In name all_timezones /\ z = pytz_timezone name
                     /\ uses_abbreviation timezone z = true)
    /\ (forall name, In name all_timezones ->
          uses_abbreviation timezone (pytz_timezone name) = true ->
          (Py.len (zone z) <= Py.len (zone (pytz_timezone name)))%nat)
    /\ (exists before after,
          set_iter (scan_zones timezone) = (before ++ z :: after)%list
          /\ forall x, In x before -> (Py.len (zone z) < Py.len (zone x))%nat)
    /\ ((forall name, In name all_timezones ->
           uses_abbreviation timezone (pytz_timezone name) = true ->
           Py.len (zone (pytz_timezone name)) = Py.len (zone z) ->
           pytz_timezone name = z) ->
        forall sets' : SetOrder,
          get_timezone_name (sets := sets') timezone = Ok (TzInfo z)).
Proof.
  intros Hno Hint (name0 & Hin0 & Huse0).
  rewrite (get_timezone_name_abbreviation _ Hno Hint).
  destruct (min_nonempty (fun z => Py.len (zone z)) (l := set_iter (scan_zones timezone)))
    as [z Hz].
  { intros Hnil.
    assert (Hc : In (pytz_timezone name0) (set_iter (scan_zones timezone))).
    { apply (proj2 (set_iter_In _ _)), (proj2 (scan_zones_In _ _)). eauto. }
    rewrite Hnil in Hc. exact Hc. }
  exists z. rewrite Hz. simpl. split; [reflexivity|].
  destruct (min_Ok _ _ Hz) as [Hzin Hzle].
  apply (proj1 (set_iter_In _ _)) in Hzin.
  assert (Hall : forall name, In name all_timezones ->
            uses_abbreviation timezone (pytz_timezone name) = true ->
            (Py.len (zone z) <= Py.len (zone (pytz_timezone name)))%nat).
  { intros name Hin Huse.
    apply Hzle, (proj2 (set_iter_In _ _)), (proj2 (scan_zones_In _ _)). eauto. }
  split; [exact (proj1 (scan_zones_In _ _) Hzin)|]. split; [exact Hall|].
  split.
  { destruct (min_first _ _ Hz) as (before & after & Hl & Hbefore & _).
    exists before, after. split; [exact Hl | exact Hbefore]. }
  intros Huniq sets'.
  rewrite (get_timezone_name_abbreviation (sets := sets') _ Hno Hint).
  rewrite (@min_unique _ (fun z => Py.len (zone z)) (set_iter (scan_zones timezone)) z).
  - reflexivity.
  - exact (proj2 (set_iter_In _ _) Hzin).
  - intros x Hx.
    apply (proj1 (set_iter_In _ _)), (proj1 (scan_zones_In _ _)) in Hx.
    destruct Hx as (name & Hin & -> & Huse). now apply Hall.
  - intros x Hx Hlen.
    apply (proj1 (set_iter_In _ _)), (proj1 (scan_zones_In _ _)) in Hx.
    destruct Hx as (name & Hin & -> & Huse). now apply Huniq.
Qed.

(** ** The timestamp parser *)

Section Parser.

Context {tzdb : Pytz} {sets : SetOrder} {dt : Datetime}.

Lemma naive_sub_in_range (t delta : Z) :
  0 <= t - delta <= datetime_max -> naive_sub t delta = Ok (t - delta).
Proof.
  intros [Hlo Hhi]. unfold naive_sub.
  apply Z.leb_le in Hlo. apply Z.leb_le in Hhi.
  rewrite Hlo, Hhi. reflexivity.
Qed.

(** The parser never answers when the date text fails the pattern. *)
Lemma parse_switch_timestamp_no_match (ts : string) :
  strptime (new_ts_of ts) switch_format = None ->
  exists e, parse_switch_timestamp ts = Raise e.
Proof.
  intros Hno. unfold parse_switch_timestamp.
  destruct (Py.index_m2 (Py.split ts " ")) as [tz|e]; simpl; [|eauto].
  destruct (get_timezone_name tz) as [v|e]; simpl; [|eauto].
  unfold call_strptime. fold (new_ts_of ts). fold switch_format.
  rewrite Hno. simpl. eauto.
Qed.

(** C5, as the code has it.  When the zone token of a time stamp is resolved
    to a zone object (a listed name or an abbreviation), the date text fits
    the pattern and reads as the naive instant [t], the zone has a UTC offset
    at [t] (the offset it observes at that reading, summer time included),
    and [t] less that offset is a [datetime], the parser returns [t] less the
    offset, tagged UTC. *)
Theorem parse_switch_timestamp_zone (ts tz : string) (z : tzinfo) (t offset : Z) :
  Py.index_m2 (Py.split ts " ") = Ok tz ->
  get_timezone_name tz = Ok (TzInfo z) ->
  strptime (new_ts_of ts) switch_format = Some t ->
  utcoffset z t = Ok offset ->
  0 <= t - offset <= datetime_max ->
  parse_switch_timestamp ts = Ok {| wall := t - offset; tzoffset := Some 0 |}.
Proof.
  intros Htz Hres Hparse Hoff Hrange. unfold parse_switch_timestamp.
  rewrite Htz. simpl. rewrite Hres. simpl.
  unfold call_strptime. fold (new_ts_of ts). fold switch_format.
  rewrite Hparse. simpl. rewrite Hoff. simpl.
  rewrite naive_sub_in_range by exact Hrange. reflexivity.
Qed.

(** C9, as the code has it.  A time stamp whose date text fails the pattern
    is never parsed to an instant.  The zone token is taken and resolved
    before the pattern is tried: when it is resolved the parser raises the
    [ValueError] of [strptime]; when the resolver raises, the parser raises
    what the resolver raised; and when the text has no second-to-last token
    the parser raises [IndexError]. *)
Theorem malformed_timestamp_raises (ts : string) :
  strptime (new_ts_of ts) switch_format = None ->
  (exists e, parse_switch_timestamp ts = Raise e)
  /\ (forall tz v, Py.index_m2 (Py.split ts " ") = Ok tz ->
                   get_timezone_name tz = Ok v ->
                   parse_switch_timestamp ts = Raise ValueError_strptime)
  /\ (forall tz e, Py.index_m2 (Py.split ts " ") = Ok tz ->
                   get_timezone_name tz = Raise e ->
                   parse_switch_timestamp ts = Raise e)
  /\ ((List.length (Py.split ts " ") < 2)%nat ->
      parse_switch_timestamp ts = Raise IndexError).
Proof.
  intros Hno. split; [now apply parse_switch_timestamp_no_match|].
  split; [|split].
  - intros tz v Htz Hres. unfold parse_switch_timestamp.
    rewrite Htz. simpl. rewrite Hres. simpl.
    unfold call_strptime. fold (new_ts_of ts). fold switch_format.
    rewrite Hno. reflexivity.
  - intros tz e Htz Hres. unfold parse_switch_timestamp.
    rewrite Htz. simpl. rewrite Hres. reflexivity.
  - intros Hlen. unfold parse_switch_timestamp, Py.index_m2.
    apply Nat.leb_gt in Hlen. rewrite Hlen. reflexivity.
Qed.

End Parser.

(** ** The status-page fetcher *)

Section Fetcher.

Context {net : Remote}.

(** Whatever the loop's own counter, the request is for page 1. *)
Lemma statuspage_loop_asks_page_1 (fuel : nat) (page : Z) (out : list incident)
    (requested : list Z) :
  Forall (eq 1) requested ->
  Forall (eq 1) (fst (statuspage_loop fuel page out requested)).
Proof.
  revert page out requested.
  induction fuel as [|fuel IH]; intros page out requested Hreq; simpl; [exact Hreq|].
  assert (Hreq' : Forall (eq 1) (requested ++ [1])).
  { apply Forall_app. split; [exact Hreq | repeat constructor]. }
  destruct (statuspage_get 1) as [new_data|e]; simpl; [|exact Hreq'].
  destruct (negb (Nat.eqb (List.length new_data) 100)); simpl; [exact Hreq'|].
  now apply IH.
Qed.

Lemma statuspage_loop_full_first_page (l : list incident) :
  statuspage_get 1 = Ok l ->
  List.length l = 100%nat ->
  forall fuel page out requested,
    statuspage_loop fuel page out requested = (requested ++ repeat 1 fuel, Running)%list.
Proof.
  intros Hget Hlen.
  induction fuel as [|fuel IH]; intros page out requested; simpl.
  - now rewrite app_nil_r.
  - rewrite Hget, Hlen. simpl. rewrite IH, <- app_assoc. reflexivity.
Qed.

Lemma statuspage_loop_short_first_page (l : list incident) :
  statuspage_get 1 = Ok l ->
  List.length l <> 100%nat ->
  forall fuel page out requested,
    statuspage_loop (S fuel) page out requested
    = (requested ++ [1], Returns (out ++ l))%list.
Proof.
  intros Hget Hlen fuel page out requested. simpl. rewrite Hget.
  apply Nat.eqb_neq in Hlen. rewrite Hlen. reflexivity.
Qed.

(** What the fetcher returns has passed the filter on [impact]. *)
Lemma get_statuspage_maintenance_Returns (fuel : nat) (requested : list Z)
    (fetched : list incident) :
  get_statuspage_maintenance fuel = (requested, Returns fetched) ->
  exists out,
    statuspage_loop fuel 1 [] [] = (requested, Returns out)
    /\ fetched = filter (fun e => String.eqb (inc_impact e) "maintenance") out.
Proof.
  unfold get_statuspage_maintenance.
  destruct (statuspage_loop fuel 1 [] []) as [reqs [out|e|]]; intros [= <- <-].
  eauto.
Qed.

(** C3 fails on the code.  When the first page of scheduled incidents is
    full (100 entries), every request of the fetcher asks for page 1 again,
    the [page] counter never reaching a request, and the fetcher is still
    running after any number of requests: it does not move on to page 2, and
    it does not return. *)
Theorem get_statuspage_maintenance_full_first_page (l : list incident) :
  statuspage_get 1 = Ok l ->
  List.length l = 100%nat ->
  forall fuel, get_statuspage_maintenance fuel = (repeat 1 fuel, Running).
Proof.
  intros Hget Hlen fuel. unfold get_statuspage_maintenance.
  rewrite (statuspage_loop_full_first_page Hget Hlen). reflexivity.
Qed.

End Fetcher.

(** ** The reconciler *)

Section Reconciler.

Context {dt : Datetime} {net : Remote}.

Variable cfg : secrets.

Lemma last_map_Some_cons (A : Type) (x : A) (l : list A) :
  last (Some x :: map Some l) None
  = match last (map Some l) None with
    | Some y => Some y
    | None => Some x
    end.
Proof.
  revert x. induction l as [|y l IH]; intros x; [reflexivity|].
  change (last (Some x :: map Some (y :: l)) None)
    with (last (Some y :: map Some l) None).
  rewrite IH. change (last (map Some (y :: l)) None)
    with (last (Some y :: map Some l) None).
  rewrite IH. now destruct (last (map Some l) None).
Qed.

(** [last_match] read from the front of the list. *)
Lemma last_match_cons (w : SWITCHMaintenance) (m : incident) (sp : list incident) :
  last_match w (m :: sp)
  = match last_match w sp with
    | Some m' => Some m'
    | None => if starts_at w m then Some m else None
    end.
Proof.
  unfold last_match. simpl filter.
  destruct (starts_at w m).
  - simpl map. apply last_map_Some_cons.
  - now destruct (last (map Some (filter (starts_at w) sp)) None).
Qed.

Lemma last_match_Some (w : SWITCHMaintenance) (sp : list incident) (m : incident) :
  last_match w sp = Some m ->
  exists before after,
    sp = (before ++ m :: after)%list
    /\ starts_at w m = true
    /\ forall m', In m' after -> starts_at w m' = false.
Proof.
  induction sp as [|x sp IH]; [discriminate|].
  rewrite last_match_cons.
  destruct (last_match w sp) as [m'|] eqn:Hrest.
  - intros [= ->]. destruct (IH eq_refl) as (before & after & -> & Hm & Hafter).
    exists (x :: before), after. auto.
  - destruct (starts_at w x) eqn:Hx; [|discriminate].
    intros [= ->]. exists [], sp. repeat split; [assumption|].
    clear IH. induction sp as [|y sp IH]; intros m' Hin; [contradiction|].
    rewrite last_match_cons in Hrest.
    destruct (last_match w sp); [discriminate|].
    destruct (starts_at w y) eqn:Hy; [discriminate|].
    destruct Hin as [<-|Hin]; auto.
Qed.

Lemma last_match_None (w : SWITCHMaintenance) (sp : list incident) :
  last_match w sp = None <-> forall m, In m sp -> starts_at w m = false.
Proof.
  induction sp as [|x sp IH]; [split; [intros _ m [] | reflexivity]|].
  rewrite last_match_cons. split.
  - destruct (last_match w sp); [discriminate|].
    destruct (starts_at w x) eqn:Hx; [discriminate|].
    intros _ m [<-|Hin]; [assumption | now apply IH].
  - intros Hall.
    rewrite (proj2 IH (fun m Hin => Hall m (or_intror Hin))).
    now rewrite (Hall x (or_introl eq_refl)).
Qed.

Lemma last_match_In (w : SWITCHMaintenance) (sp : list incident) (m : incident) :
  last_match w sp = Some m -> In m sp /\ starts_at w m = true.
Proof.
  intros H. destruct (last_match_Some _ _ H) as (before & after & -> & Hm & _).
  split; [apply in_elt | assumption].
Qed.

(** The inner loop is the specification's choice, as long as every start
    can be read; it raises otherwise. *)
Lemma scan_incidents_spec (w : SWITCHMaintenance) (sp : list incident)
    (statuspage_m : option incident) :
  scan_incidents w sp statuspage_m
  = if forallb readable sp
    then Ok match last_match w sp with
            | Some m => Some m
            | None => statuspage_m
            end
    else Raise ValueError_fromisoformat.
Proof.
  revert statuspage_m. induction sp as [|m sp IH]; intros statuspage_m; [reflexivity|].
  simpl scan_incidents. simpl forallb. rewrite last_match_cons.
  unfold call_fromisoformat, readable at 1, starts_at.
  unfold parsed_start at 1 2.
  destruct (fromisoformat (Py.replace_Z (inc_scheduled_for m))) as [d|]; simpl; [|reflexivity].
  rewrite IH. destruct (forallb readable sp); [|reflexivity].
  destruct (last_match w sp); [reflexivity|].
  now destruct (datetime_eqb d (from_time w)).
Qed.

Lemma make_incident_data_payload (w : SWITCHMaintenance) :
  payload_for cfg w (make_incident_data cfg w).
Proof. unfold payload_for. simpl. repeat split. Qed.

Lemma make_request_intent (w : SWITCHMaintenance) (statuspage_m : option incident) :
  make_request cfg w statuspage_m
  = request_of cfg
      match statuspage_m with
      | Some m => Update (inc_id m) (make_incident_data cfg w)
      | None => Create (make_incident_data cfg w)
      end.
Proof. now destruct statuspage_m. Qed.

(** The requests sent are those of the windows, in order, up to the point
    where the loop ends. *)
Lemma main_loop_sent (ws : list SWITCHMaintenance) (sp : list incident) :
  exists n,
    fst (main_loop cfg ws sp)
    = map (fun w => make_request cfg w (last_match w sp)) (firstn n ws)
    /\ (snd (main_loop cfg ws sp) = Ok tt -> firstn n ws = ws).
Proof.
  induction ws as [|w ws (n & Hsent & Hall)]; [exists O; auto|].
  simpl main_loop. rewrite scan_incidents_spec.
  destruct (forallb readable sp).
  - replace (match last_match w sp with Some m => Some m | None => None end)
      with (last_match w sp) by now destruct (last_match w sp).
    destruct (statuspage_send (make_request cfg w (last_match w sp))) as [[]|e].
    + destruct (main_loop cfg ws sp) as [sent res]. simpl in *.
      exists (S n). simpl. rewrite Hsent. split; [reflexivity|].
      intros Hres. now rewrite (Hall Hres).
    + exists 1%nat. simpl. split; [reflexivity | discriminate].
  - exists O. simpl. split; [reflexivity | discriminate].
Qed.

Lemma main_loop_all (ws : list SWITCHMaintenance) (sp : list incident) :
  forallb readable sp = true ->
  (forall r, statuspage_send r = Ok tt) ->
  main_loop cfg ws sp
  = (map (fun w => make_request cfg w (last_match w sp)) ws, Ok tt).
Proof.
  intros Hread Hsend. induction ws as [|w ws IH]; [reflexivity|].
  simpl main_loop. rewrite scan_incidents_spec, Hread, Hsend, IH.
  simpl. now destruct (last_match w sp).
Qed.

(** C1. Given the two filtered lists, with every incident's start readable
    and no write refused, the reconciler sends exactly one request per
    window, in the order of the windows.  The request of window [w] carries
    the payload of [w] (its start and end, the fixed name, body and impact,
    every flag true); it is the update of the last incident of the list whose
    start equals the start of [w], and a creation when no incident's start
    does.  An update is the PATCH of the incident's own resource, the
    incidents of the page followed by the id of the matched incident; a
    creation is the POST to the incidents of the page. *)
Theorem reconciler_one_write_per_window (ws : list SWITCHMaintenance) (sp : list incident) :
  forallb readable sp = true ->
  (forall r, statuspage_send r = Ok tt) ->
  exists intents,
    main_loop cfg ws sp
    = (map (fun i =>
              match i with
              | Create p =>
                  POST ("https://api.statuspage.io/v1/pages/"
                        ++ STATUSPAGE_PAGE_ID cfg ++ "/incidents")
                       ("OAuth " ++ STATUSPAGE_API_KEY cfg) p
              | Update id p =>
                  PATCH ("https://api.statuspage.io/v1/pages/"
                         ++ STATUSPAGE_PAGE_ID cfg ++ "/incidents/" ++ id)
                        ("OAuth " ++ STATUSPAGE_API_KEY cfg) p
              end) intents,
       Ok tt)
    /\ Forall2
         (fun w i =>
            exists p, payload_for cfg w p
                      /\ i = match last_match w sp with
                             | Some m => Update (inc_id m) p
                             | None => Create p
                             end)
         ws intents.
Proof.
  intros Hread Hsend.
  exists (map (fun w => match last_match w sp with
                        | Some m => Update (inc_id m) (make_incident_data cfg w)
                        | None => Create (make_incident_data cfg w)
                        end) ws).
  split.
  - rewrite main_loop_all, map_map by assumption. f_equal.
    apply map_ext. intros w. now destruct (last_match w sp).
  - induction ws as [|w ws IH]; constructor; [|exact IH].
    exists (make_incident_data cfg w).
    split; [apply make_incident_data_payload | reflexivity].
Qed.

Lemma keep_switch_spec (w : SWITCHMaintenance) :
  keep_switch w = true
  <-> environment w = "production" /\ In "epp.nic.ch" (systems w).
Proof.
  unfold keep_switch. rewrite andb_true_iff, String.eqb_eq, existsb_exists.
  split; intros [Henv Hsys]; split; try assumption.
  - destruct Hsys as (x & Hin & Hx). apply String.eqb_eq in Hx. now subst x.
  - exists "epp.nic.ch". split; [assumption | apply String.eqb_refl].
Qed.

Lemma keep_statuspage_spec (m : incident) :
  keep_statuspage m = true <-> inc_status m = "scheduled".
Proof. unfold keep_statuspage. apply String.eqb_eq. Qed.

Lemma firstn_In (A : Type) (n : nat) (l : list A) (x : A) :
  In x (firstn n l) -> In x l.
Proof.
  intros H. rewrite <- (firstn_skipn n l). apply in_or_app. now left.
Qed.

(** Every request sent by [reconcile] is the request of a kept window, and
    an update targets an incident that is scheduled and starts with the
    window. *)
Lemma reconcile_sent (ws : list SWITCHMaintenance) (sp : list incident) (r : request) :
  In r (fst (reconcile cfg ws sp)) ->
  exists w,
    In w ws /\ keep_switch w = true
    /\ (r = request_of cfg (Create (make_incident_data cfg w))
        /\ last_match w (filter keep_statuspage sp) = None
        \/ exists m,
             In m sp /\ inc_status m = "scheduled" /\ starts_at w m = true
             /\ r = request_of cfg (Update (inc_id m) (make_incident_data cfg w))).
Proof.
  unfold reconcile. intros Hr.
  destruct (main_loop_sent (filter keep_switch ws) (filter keep_statuspage sp))
    as (n & Hsent & _).
  rewrite Hsent in Hr. apply in_map_iff in Hr. destruct Hr as (w & <- & Hw).
  apply firstn_In, filter_In in Hw. destruct Hw as [Hin Hkeep].
  exists w. split; [assumption|]. split; [assumption|].
  rewrite make_request_intent.
  destruct (last_match w (filter keep_statuspage sp)) as [m|] eqn:Hm.
  - right. exists m. apply last_match_In in Hm. destruct Hm as [Hm Hstart].
    apply filter_In in Hm. destruct Hm as [Hm Hsched].
    apply keep_statuspage_spec in Hsched. auto.
  - left. auto.
Qed.

(** C7. A window whose environment is not production, or whose systems do
    not list [epp.nic.ch], leaves no trace in a run: the run is that of the
    list without it, so every request sent belongs to a window that is in
    production and lists that system.  And a request is an update only of an
    incident whose status is [scheduled] (and whose start is the window's). *)
Theorem filters_gate_the_writes (ws : list SWITCHMaintenance) (sp : list incident) :
  (forall before w after,
     ws = (before ++ w :: after)%list ->
     environment w <> "production" \/ ~ In "epp.nic.ch" (systems w) ->
     reconcile cfg ws sp = reconcile cfg (before ++ after) sp)
  /\ (forall r, In r (fst (reconcile cfg ws sp)) ->
       exists w,
         In w ws /\ environment w = "production" /\ In "epp.nic.ch" (systems w)
         /\ (r = request_of cfg (Create (make_incident_data cfg w))
             \/ exists m,
                  In m sp /\ inc_status m = "scheduled" /\ starts_at w m = true
                  /\ r = request_of cfg (Update (inc_id m) (make_incident_data cfg w)))).
Proof.
  split.
  - intros before w after -> Hout. unfold reconcile.
    rewrite !filter_app. simpl.
    destruct (keep_switch w) eqn:Hkeep; [|reflexivity].
    apply keep_switch_spec in Hkeep. tauto.
  - intros r Hr. destruct (reconcile_sent _ _ _ Hr) as (w & Hin & Hkeep & Hcase).
    apply keep_switch_spec in Hkeep. destruct Hkeep as [Henv Hsys].
    exists w. repeat split; try assumption.
    destruct Hcase as [[-> _]|Hm]; auto.
Qed.

(** C10. The fetcher returns only incidents whose impact is [maintenance], so
    an incident of another impact is never the target of an update, whatever
    its status and start; and a kept window that only such incidents match
    gets a creation (given readable starts and no refused write). *)
Theorem other_impacts_are_never_matched (fuel : nat) (requested : list Z)
    (out : list incident) :
  statuspage_loop fuel 1 [] [] = (requested, Returns out) ->
  exists fetched,
    get_statuspage_maintenance fuel = (requested, Returns fetched)
    /\ (forall e, In e fetched <-> In e out /\ inc_impact e = "maintenance")
    /\ (forall ws r, In r (fst (reconcile cfg ws fetched)) ->
         exists w,
           In w ws
           /\ (r = request_of cfg (Create (make_incident_data cfg w))
               \/ exists m,
                    In m out /\ inc_impact m = "maintenance"
                    /\ inc_status m = "scheduled" /\ starts_at w m = true
                    /\ r = request_of cfg (Update (inc_id m) (make_incident_data cfg w))))
    /\ (forall ws w,
         In w ws -> keep_switch w = true ->
         (forall e, In e out -> inc_status e = "scheduled" -> starts_at w e = true ->
                    inc_impact e <> "maintenance") ->
         forallb readable (filter keep_statuspage fetched) = true ->
         (forall r, statuspage_send r = Ok tt) ->
         In (request_of cfg (Create (make_incident_data cfg w)))
            (fst (reconcile cfg ws fetched))).
Proof.
  intros Hloop.
  exists (filter (fun e => String.eqb (inc_impact e) "maintenance") out).
  assert (Hfetched : forall e,
            In e (filter (fun e => String.eqb (inc_impact e) "maintenance") out)
            <-> In e out /\ inc_impact e = "maintenance").
  { intros e. rewrite filter_In, String.eqb_eq. reflexivity. }
  split; [unfold get_statuspage_maintenance; now rewrite Hloop|].
  split; [exact Hfetched|]. split.
  - intros ws r Hr. destruct (reconcile_sent _ _ _ Hr) as (w & Hin & _ & Hcase).
    exists w. split; [assumption|].
    destruct Hcase as [[-> _]|(m & Hm & Hsched & Hstart & ->)]; [now left|].
    right. exists m. apply Hfetched in Hm. destruct Hm as [Hm Himpact]. auto 6.
  - intros ws w Hin Hkeep Hothers Hread Hsend. unfold reconcile.
    rewrite main_loop_all by assumption. simpl.
    apply in_map_iff. exists w. split; [|apply filter_In; auto].
    rewrite make_request_intent.
    destruct (last_match w (filter keep_statuspage _)) as [m|] eqn:Hm; [|reflexivity].
    apply last_match_In in Hm. destruct Hm as [Hm Hstart].
    apply filter_In in Hm. destruct Hm as [Hm Hsched].
    apply keep_statuspage_spec in Hsched.
    apply Hfetched in Hm. destruct Hm as [Hm Himpact].
    now destruct (Hothers m Hm Hsched Hstart).
Qed.

Lemma datetime_eqb_sym (a b : datetime) : datetime_eqb a b = datetime_eqb b a.
Proof.
  unfold datetime_eqb.
  destruct (tzoffset a), (tzoffset b); try reflexivity; apply Z.eqb_sym.
Qed.

Lemma datetime_eqb_trans (a b c : datetime) :
  datetime_eqb a b = true -> datetime_eqb b c = true -> datetime_eqb a c = true.
Proof.
  unfold datetime_eqb.
  destruct (tzoffset a), (tzoffset b), (tzoffset c); try discriminate;
    rewrite !Z.eqb_eq; lia.
Qed.

Lemma main_loop_Ok (ws : list SWITCHMaintenance) (sp : list incident) (sent : list request) :
  main_loop cfg ws sp = (sent, Ok tt) ->
  sent = map (fun w => make_request cfg w (last_match w sp)) ws.
Proof.
  intros H. destruct (main_loop_sent ws sp) as (n & Hsent & Hall).
  rewrite H in Hsent, Hall. simpl in Hsent, Hall. now rewrite Hsent, Hall.
Qed.

(** A window that some incident of the list starts with is answered by an
    update, if it is answered. *)
Lemma main_loop_patches (ws : list SWITCHMaintenance) (sp : list incident) :
  (forall w, In w ws -> exists m, In m sp /\ starts_at w m = true) ->
  forallb is_patch (fst (main_loop cfg ws sp)) = true.
Proof.
  intros Hmatch. destruct (main_loop_sent ws sp) as (n & -> & _).
  apply forallb_forall. intros r Hr.
  apply in_map_iff in Hr. destruct Hr as (w & <- & Hw). apply firstn_In in Hw.
  destruct (last_match w sp) as [m|] eqn:Hm; [reflexivity|].
  destruct (Hmatch w Hw) as (m & Hin & Hstart).
  rewrite (proj1 (last_match_None w sp) Hm m Hin) in Hstart. discriminate.
Qed.

(** C8. Let a first run end without an exception.  Let the status page then
    hold, as scheduled incidents, an incident of the same start for every
    scheduled incident it held, and for every creation sent an incident whose
    start is the [scheduled_for] of the payload; let the text of every kept
    window's start read back as that start.  Then a second run on the same
    windows sends no creation: whatever it sends is an update, and with
    readable starts and no refused write it sends one update per kept
    window. *)
Theorem second_run_creates_nothing (ws : list SWITCHMaintenance)
    (sp1 sp2 : list incident) (sent1 : list request) :
  reconcile cfg ws sp1 = (sent1, Ok tt) ->
  forallb (fun w => reads_back (from_time w)) (filter keep_switch ws) = true ->
  (forall m, In m sp1 -> inc_status m = "scheduled" ->
     exists m', In m' sp2 /\ inc_status m' = "scheduled" /\ same_start m m' = true) ->
  (forall url auth p, In (POST url auth p) sent1 ->
     exists m', In m' sp2 /\ inc_status m' = "scheduled" /\ scheduled_as m' p = true) ->
  forallb is_patch (fst (reconcile cfg ws sp2)) = true
  /\ (forallb readable (filter keep_statuspage sp2) = true ->
      (forall r, statuspage_send r = Ok tt) ->
      snd (reconcile cfg ws sp2) = Ok tt
      /\ List.length (fst (reconcile cfg ws sp2))
         = List.length (filter keep_switch ws)).
Proof.
  intros Hrun1 Hback Hkept Hcreated. unfold reconcile in *.
  apply main_loop_Ok in Hrun1.
  split.
  - apply main_loop_patches. intros w Hw.
    assert (Hbw : reads_back (from_time w) = true).
    { exact (proj1 (forallb_forall _ _) Hback w Hw). }
    apply filter_In in Hw. destruct Hw as [Hw Hkeep].
    assert (Hsome : exists m', In m' sp2 /\ inc_status m' = "scheduled"
                               /\ starts_at w m' = true).
    { destruct (last_match w (filter keep_statuspage sp1)) as [m|] eqn:Hm.
      - apply last_match_In in Hm. destruct Hm as [Hm Hstart].
        apply filter_In in Hm. destruct Hm as [Hm Hsched].
        apply keep_statuspage_spec in Hsched.
        destruct (Hkept m Hm Hsched) as (m' & Hin' & Hsched' & Hsame).
        exists m'. repeat split; try assumption.
        unfold starts_at in *. unfold same_start in Hsame.
        destruct (parsed_start m) as [d|]; [|discriminate].
        destruct (parsed_start m') as [d'|]; [|discriminate].
        rewrite datetime_eqb_sym in Hsame.
        exact (datetime_eqb_trans _ _ _ Hsame Hstart).
      - assert (Hpost : In (POST (incidents_url cfg) (authorization_header cfg)
                              (make_incident_data cfg w)) sent1).
        { rewrite Hrun1. apply in_map_iff. exists w.
          rewrite Hm. split; [reflexivity|].
          apply filter_In. split; assumption. }
        destruct (Hcreated _ _ _ Hpost) as (m' & Hin' & Hsched' & Has).
        exists m'. repeat split; try assumption.
        unfold starts_at. unfold scheduled_as in Has. unfold reads_back in Hbw.
        simpl in Has.
        destruct (parsed_start m') as [d1|]; [|discriminate].
        destruct (fromisoformat (isoformat (from_time w))) as [d2|]; [|discriminate].
        exact (datetime_eqb_trans _ _ _ Has Hbw). }
    destruct Hsome as (m' & Hin' & Hsched' & Hstart').
    exists m'. split; [|assumption].
    apply filter_In. split; [assumption | now apply keep_statuspage_spec].
  - intros Hread Hsend. rewrite main_loop_all by assumption. simpl.
    split; [reflexivity | apply length_map].
Qed.

End Reconciler.

(** ** Texts: [split], [join], [int] and [str] *)

Lemma append_assoc (a b c : string) : (a ++ b) ++ c = a ++ (b ++ c).
Proof. induction a as [|x a IH]; simpl; [reflexivity | now rewrite IH]. Qed.

Lemma rev_string_app (acc s : string) :
  Py.rev_string acc s = Py.rev_string EmptyString s ++ acc.
Proof.
  revert acc. induction s as [|c s IH]; intros acc; simpl; [reflexivity|].
  rewrite IH, (IH (String c EmptyString)), append_assoc. reflexivity.
Qed.

Lemma append_empty_r (s : string) : s ++ "" = s.
Proof. induction s as [|c s IH]; simpl; [reflexivity | now rewrite IH]. Qed.

Lemma rev_string_rev_string (acc s : string) :
  Py.rev_string EmptyString (Py.rev_string acc s)
  = Py.rev_string EmptyString acc ++ s.
Proof.
  revert acc. induction s as [|c s IH]; intros acc; simpl.
  - now rewrite append_empty_r.
  - rewrite IH. simpl. rewrite (rev_string_app (String c EmptyString) acc).
    now rewrite append_assoc.
Qed.

Lemma prefix_append (sep rest : string) : String.prefix sep (sep ++ rest) = true.
Proof.
  induction sep as [|c sep IH]; simpl; [now destruct rest|].
  destruct (ascii_dec c c); [exact IH | congruence].
Qed.

(** Characters of a separator that are still to be skipped are passed
    over. *)
Lemma split_from_skip (sep a b cur : string) :
  Py.split_from sep (a ++ b) cur (String.length a) = Py.split_from sep b cur O.
Proof.
  induction a as [|c a IH]; simpl; [|exact IH].
  destruct b; reflexivity.
Qed.

(** A piece without the first character of the separator is read to its
    end. *)
Lemma split_from_piece (c0 : ascii) (sep' x rest cur : string) :
  free_of c0 x = true ->
  Py.split_from (String c0 sep') (x ++ rest) cur O
  = Py.split_from (String c0 sep') rest (Py.rev_string cur x) O.
Proof.
  revert cur. induction x as [|c x IH]; intros cur Hfree; simpl; [reflexivity|].
  simpl in Hfree. apply andb_true_iff in Hfree. destruct Hfree as [Hc Hfree].
  destruct (ascii_dec c0 c) as [->|Hne].
  - rewrite Ascii.eqb_refl in Hc. discriminate.
  - now apply IH.
Qed.

Lemma split_join (c0 : ascii) (sep' : string) (l : list string) :
  l <> [] ->
  forallb (free_of c0) l = true ->
  Py.split (Py.join (String c0 sep') l) (String c0 sep') = l.
Proof.
  unfold Py.split. induction l as [|x l IH]; [congruence|].
  intros _ Hfree. simpl in Hfree. apply andb_true_iff in Hfree.
  destruct Hfree as [Hx Hl].
  destruct l as [|y l].
  - simpl Py.join. rewrite <- (append_empty_r x) at 1.
    rewrite split_from_piece by exact Hx. simpl.
    now rewrite rev_string_rev_string.
  - change (Py.join (String c0 sep') (x :: y :: l))
      with (x ++ String c0 sep' ++ Py.join (String c0 sep') (y :: l)).
    rewrite split_from_piece by exact Hx.
    change (String c0 sep' ++ Py.join (String c0 sep') (y :: l))
      with (String c0 (sep' ++ Py.join (String c0 sep') (y :: l))).
    cbn [Py.split_from].
    change (String c0 (sep' ++ Py.join (String c0 sep') (y :: l)))
      with (String c0 sep' ++ Py.join (String c0 sep') (y :: l)).
    rewrite prefix_append.
    rewrite rev_string_rev_string. simpl (Py.rev_string "" "" ++ x).
    f_equal. simpl String.length.
    replace (S (String.length sep') - 1)%nat with (String.length sep') by lia.
    rewrite split_from_skip. apply IH; [discriminate | exact Hl].
Qed.

Lemma lstrip_no_space (s : string) : no_space s = true -> Py.lstrip s = s.
Proof.
  destruct s as [|c s]; simpl; [reflexivity|].
  intros H. apply andb_true_iff in H. destruct H as [Hc _].
  now destruct (Py.is_space c).
Qed.

Lemma no_space_rev_string (acc s : string) :
  no_space acc = true -> no_space s = true ->
  no_space (Py.rev_string acc s) = true.
Proof.
  revert acc. induction s as [|c s IH]; intros acc Hacc Hs; simpl; [exact Hacc|].
  simpl in Hs. apply andb_true_iff in Hs. destruct Hs as [Hc Hs].
  apply IH; [simpl; now rewrite Hc, Hacc | exact Hs].
Qed.

Lemma strip_no_space (s : string) : no_space s = true -> Py.strip s = s.
Proof.
  intros H. unfold Py.strip.
  rewrite (lstrip_no_space s) by exact H.
  rewrite lstrip_no_space by now apply no_space_rev_string.
  now rewrite rev_string_rev_string.
Qed.

Lemma no_space_string_of_uint (d : Decimal.uint) :
  no_space (NilEmpty.string_of_uint d) = true.
Proof. induction d; simpl; auto. Qed.

(** [int] reads the digits that [str] writes, most significant first. *)
Lemma digits_of_uint_acc (d : Decimal.uint) (acc : positive) :
  Py.digits (NilEmpty.string_of_uint d) (Z.pos acc) true
  = Some (Z.pos (Pos.of_uint_acc d acc)).
Proof.
  revert acc. induction d; intros acc; [reflexivity|..];
    cbn [NilEmpty.string_of_uint Py.digits Pos.of_uint_acc];
    match goal with
    | |- context [Py.digit ?c] =>
        let v := eval vm_compute in (Py.digit c) in
        change (Py.digit c) with v
    end;
    cbv beta iota;
    match goal with
    | |- Py.digits _ ?a true = Some (Z.pos (Pos.of_uint_acc _ ?p)) =>
        replace a with (Z.pos p) by lia
    end;
    apply IHd.
Qed.

Lemma digits_of_uint (d : Decimal.uint) (after_digit : bool) :
  d <> Decimal.Nil \/ after_digit = true ->
  Py.digits (NilEmpty.string_of_uint d) 0 after_digit
  = Some (Z.of_N (Pos.of_uint d)).
Proof.
  revert after_digit. induction d; intros after_digit Hd;
    [destruct Hd as [Hd| ->]; [congruence | reflexivity] | ..];
    cbn [NilEmpty.string_of_uint Py.digits Pos.of_uint];
    match goal with
    | |- context [Py.digit ?c] =>
        let v := eval vm_compute in (Py.digit c) in
        change (Py.digit c) with v
    end;
    cbv beta iota;
    [apply IHd; now right | ..];
    match goal with
    | |- Py.digits _ ?a true = Some (Z.of_N (N.pos (Pos.of_uint_acc _ ?p))) =>
        change a with (Z.pos p)
    end;
    apply digits_of_uint_acc.
Qed.

Lemma int_of_uint (d : Decimal.uint) :
  d <> Decimal.Nil ->
  Py.int (NilEmpty.string_of_uint d) = Some (Z.of_N (Pos.of_uint d))
  /\ Py.int ("+" ++ NilEmpty.string_of_uint d) = Some (Z.of_N (Pos.of_uint d))
  /\ Py.int ("-" ++ NilEmpty.string_of_uint d) = Some (- Z.of_N (Pos.of_uint d)).
Proof.
  intros Hd. unfold Py.int.
  rewrite !strip_no_space
    by (simpl; apply no_space_string_of_uint).
  split; [|split].
  - rewrite <- (digits_of_uint (d := d) (after_digit := false)) by now left.
    destruct d; [congruence|..]; reflexivity.
  - simpl. apply digits_of_uint. now left.
  - simpl. rewrite digits_of_uint by now left. reflexivity.
Qed.

Lemma int_str (n : Z) : Py.int (Py.str n) = Some n.
Proof.
  unfold Py.str. destruct n as [|p|p]; [reflexivity|..]; simpl Z.to_int;
    unfold NilZero.string_of_int, NilZero.string_of_uint;
    pose proof (DecimalPos.Unsigned.to_uint_nonnil p) as Hnil;
    pose proof (DecimalPos.Unsigned.of_to p) as Hval;
    destruct (int_of_uint Hnil) as (Hplain & _ & Hminus);
    rewrite Hval in *; destruct (Pos.to_uint p) eqn:Hd; try congruence;
    first [exact Hplain | exact Hminus].
Qed.

(** The text written for an offset reads back as that offset. *)
Lemma int_offset_text (n : Z) : Py.int (offset_text n) = Some n.
Proof.
  unfold offset_text. destruct (0 <? n) eqn:Hpos; [|apply int_str].
  destruct n as [|p|p]; try discriminate.
  unfold Py.str. simpl Z.to_int.
  unfold NilZero.string_of_int, NilZero.string_of_uint.
  pose proof (DecimalPos.Unsigned.to_uint_nonnil p) as Hnil.
  pose proof (DecimalPos.Unsigned.of_to p) as Hval.
  destruct (int_of_uint Hnil) as (_ & Hplus & _).
  rewrite Hval in Hplus. destruct (Pos.to_uint p) eqn:Hd; try congruence; exact Hplus.
Qed.

(** ** More on the resolver *)

Section ResolverOutcomes.

Context {tzdb : Pytz} {sets : SetOrder}.

Lemma listed_In (timezone : string) :
  existsb (String.eqb timezone) all_timezones = true -> In timezone all_timezones.
Proof.
  intros H. apply existsb_exists in H. destruct H as (name & Hin & Heq).
  apply String.eqb_eq in Heq. now subst name.
Qed.

(** X1. The resolver raises nothing but the [ValueError] of [min], and
    raises it only for a token that is no listed name, no integer, and an
    abbreviation of no listed zone. *)
Theorem get_timezone_name_raises_only_unresolvable (timezone : string) (e : exn) :
  get_timezone_name timezone = Raise e ->
  e = ValueError_min
  /\ existsb (String.eqb timezone) all_timezones = false
  /\ Py.int timezone = None
  /\ forall name, In name all_timezones ->
       uses_abbreviation timezone (pytz_timezone name) = false.
Proof.
  unfold get_timezone_name.
  destruct (existsb (String.eqb timezone) all_timezones); [discriminate|].
  destruct (Py.int timezone); [discriminate|].
  destruct (set_iter (scan_zones timezone)) as [|z l] eqn:Hset; simpl; [|discriminate].
  intros [= <-]. repeat split.
  intros name Hin.
  destruct (uses_abbreviation timezone (pytz_timezone name)) eqn:Huse; [|reflexivity].
  assert (Hc : In (pytz_timezone name) (set_iter (scan_zones timezone))).
  { apply (proj2 (set_iter_In _ _)), (proj2 (scan_zones_In _ _)). eauto. }
  rewrite Hset in Hc. contradiction.
Qed.

(** X2. A zone object that the resolver returns is the object of a listed
    name: that of the token itself, or that of a zone that has used the token
    as an abbreviation when the token is no listed name and no integer.  A
    [str] is returned for integers only, and is [Etc/GMT] followed by the
    signed number. *)
Theorem get_timezone_name_returns_listed_zone (timezone : string) (v : tz_value) :
  get_timezone_name timezone = Ok v ->
  match v with
  | TzInfo z =>
      exists name,
        In name all_timezones /\ z = pytz_timezone name
        /\ (name = timezone
            \/ existsb (String.eqb timezone) all_timezones = false
               /\ Py.int timezone = None
               /\ uses_abbreviation timezone z = true)
  | TzStr s =>
      existsb (String.eqb timezone) all_timezones = false
      /\ exists n, Py.int timezone = Some n /\ s = "Etc/GMT" ++ offset_text n
  end.
Proof.
  unfold get_timezone_name.
  destruct (existsb (String.eqb timezone) all_timezones) eqn:Hlisted.
  - intros [= <-]. exists timezone. auto using listed_In.
  - destruct (Py.int timezone) as [n|] eqn:Hint.
    + intros [= <-]. split; [reflexivity|]. exists n. split; reflexivity.
    + intros H. apply bind_Ok in H. destruct H as (z & Hmin & [= <-]).
      apply min_Ok in Hmin. destruct Hmin as [Hin _].
      apply (proj1 (set_iter_In _ _)), (proj1 (scan_zones_In _ _)) in Hin.
      destruct Hin as (name & Hin & Hz & Huse). exists name. auto 6.
Qed.

(** X3. Abbreviations are matched without regard to the case of the token:
    two tokens that are no listed names and no integers, and that are equal
    once in upper case, are resolved alike. *)
Theorem get_timezone_name_ignores_case (timezone timezone' : string) :
  existsb (String.eqb timezone) all_timezones = false ->
  existsb (String.eqb timezone') all_timezones = false ->
  Py.int timezone = None ->
  Py.int timezone' = None ->
  Py.upper timezone = Py.upper timezone' ->
  get_timezone_name timezone = get_timezone_name timezone'.
Proof.
  intros Hl Hl' Hi Hi' Hupper.
  rewrite !get_timezone_name_abbreviation by assumption.
  unfold scan_zones, add_matching. now rewrite Hupper.
Qed.

(** X4. The text written for an integer identifies it: two tokens that
    are no listed names and read as integers are resolved to the same text
    exactly when they read as the same integer, however they are written;
    and the text after [Etc/GMT] reads back as that integer. *)
Theorem numeric_tokens_resolve_by_value (timezone timezone' : string) (n n' : Z) :
  existsb (String.eqb timezone) all_timezones = false ->
  existsb (String.eqb timezone') all_timezones = false ->
  Py.int timezone = Some n ->
  Py.int timezone' = Some n' ->
  get_timezone_name timezone = Ok (TzStr ("Etc/GMT" ++ offset_text n))
  /\ Py.int (offset_text n) = Some n
  /\ (get_timezone_name timezone = get_timezone_name timezone' <-> n = n').
Proof.
  intros Hl Hl' Hi Hi'.
  rewrite (get_timezone_name_int _ Hl Hi), (get_timezone_name_int _ Hl' Hi').
  fold (offset_text n). fold (offset_text n').
  split; [reflexivity|]. split; [apply int_offset_text|].
  split.
  - intros [= Heq].
    pose proof (int_offset_text n) as Hn. rewrite Heq, int_offset_text in Hn.
    now injection Hn.
  - now intros ->.
Qed.

End ResolverOutcomes.

(** ** More on the parser *)

Lemma index_m2_app (A : Type) (pre : list A) (x y : A) :
  Py.index_m2 (pre ++ [x; y]) = Ok x.
Proof.
  unfold Py.index_m2. rewrite length_app. simpl List.length.
  replace (2 <=? List.length pre + 2)%nat with true
    by (symmetry; apply Nat.leb_le; lia).
  replace (List.length pre + 2 - 2)%nat with (List.length pre + 0)%nat by lia.
  now rewrite nth_error_app2, Nat.add_comm, Nat.add_sub by lia.
Qed.

Lemma slices_app (A : Type) (pre : list A) (x y : A) :
  (Py.slice_to_m2 (pre ++ [x; y]) ++ Py.slice_from_m1 (pre ++ [x; y]))%list
  = (pre ++ [y])%list.
Proof.
  unfold Py.slice_to_m2, Py.slice_from_m1. rewrite length_app. simpl List.length.
  replace (List.length pre + 2 - 2)%nat with (List.length pre + 0)%nat by lia.
  replace (List.length pre + 2 - 1)%nat with (List.length pre + 1)%nat by lia.
  rewrite firstn_app_2, skipn_app. simpl firstn. rewrite app_nil_r.
  rewrite skipn_all2 by lia.
  replace (List.length pre + 1 - List.length pre)%nat with 1%nat by lia.
  reflexivity.
Qed.

Lemma split_joined_fields (pre : list string) (tz y : string) :
  forallb (free_of " ") (pre ++ [tz; y]) = true ->
  Py.split (Py.join " " (pre ++ [tz; y])) " " = (pre ++ [tz; y])%list.
Proof.
  intros Hfree. apply split_join; [|exact Hfree]. now destruct pre.
Qed.

Section ParserOutcomes.

Context {tzdb : Pytz} {sets : SetOrder} {dt : Datetime}.

Lemma parse_switch_timestamp_joined (pre : list string) (tz y : string) :
  forallb (free_of " ") (pre ++ [tz; y]) = true ->
  parse_switch_timestamp (Py.join " " (pre ++ [tz; y]))
  = (let* actual_tz := get_timezone_name tz in
     let* parsed_ts := call_strptime (Py.join " " (pre ++ [y])) switch_format in
     let* offset := call_utcoffset actual_tz parsed_ts in
     let* shifted := naive_sub parsed_ts offset in
     Ok {| wall := shifted; tzoffset := Some 0 |}).
Proof.
  intros Hfree. unfold parse_switch_timestamp.
  rewrite split_joined_fields by exact Hfree.
  now rewrite index_m2_app, slices_app.
Qed.

(** The steps behind an instant. *)
Lemma parse_switch_timestamp_steps (ts : string) (d : datetime) :
  parse_switch_timestamp ts = Ok d ->
  exists tz z t offset,
    Py.index_m2 (Py.split ts " ") = Ok tz
    /\ get_timezone_name tz = Ok (TzInfo z)
    /\ strptime (new_ts_of ts) switch_format = Some t
    /\ utcoffset z t = Ok offset
    /\ 0 <= t - offset <= datetime_max
    /\ d = {| wall := t - offset; tzoffset := Some 0 |}.
Proof.
  unfold parse_switch_timestamp. intros H.
  apply bind_Ok in H. destruct H as (tz & Htz & H).
  apply bind_Ok in H. destruct H as (v & Hres & H).
  apply bind_Ok in H. destruct H as (t & Hparse & H).
  apply bind_Ok in H. destruct H as (offset & Hoff & H).
  apply bind_Ok in H. destruct H as (shifted & Hsub & [= <-]).
  unfold call_strptime in Hparse. fold (new_ts_of ts) in Hparse.
  fold switch_format in Hparse.
  destruct (strptime (new_ts_of ts) switch_format) as [t'|] eqn:Hs; [|discriminate].
  injection Hparse as ->.
  destruct v as [z|s]; [|discriminate].
  unfold naive_sub in Hsub.
  destruct ((0 <=? t - offset) && (t - offset <=? datetime_max)) eqn:Hrange;
    [|discriminate].
  injection Hsub as <-.
  apply andb_true_iff in Hrange. destruct Hrange as [Hlo Hhi].
  apply Z.leb_le in Hlo. apply Z.leb_le in Hhi.
  exists tz, z, t, offset. auto 8.
Qed.

(** X5. The parser returns an instant exactly when the text has a
    second-to-last field, that field is resolved to a zone object, the rest
    fits the pattern, the zone has an offset at that reading, and the reading
    less the offset is a [datetime]; the instant is then that difference.  So
    every instant returned is tagged UTC and lies within the range of
    [datetime], and none is returned for a token resolved to a [str]. *)
Theorem parse_switch_timestamp_Ok_iff (ts : string) (d : datetime) :
  parse_switch_timestamp ts = Ok d
  <-> exists tz z t offset,
        Py.index_m2 (Py.split ts " ") = Ok tz
        /\ get_timezone_name tz = Ok (TzInfo z)
        /\ strptime (new_ts_of ts) switch_format = Some t
        /\ utcoffset z t = Ok offset
        /\ 0 <= t - offset <= datetime_max
        /\ d = {| wall := t - offset; tzoffset := Some 0 |}.
Proof.
  split; [apply parse_switch_timestamp_steps|].
  intros (tz & z & t & offset & Htz & Hres & Hparse & Hoff & Hrange & ->).
  unfold parse_switch_timestamp. rewrite Htz. simpl. rewrite Hres. simpl.
  unfold call_strptime. fold (new_ts_of ts). fold switch_format.
  rewrite Hparse. simpl. rewrite Hoff. simpl.
  rewrite naive_sub_in_range by exact Hrange. reflexivity.
Qed.

(** X6. For a time stamp made of fields without blanks, joined by single
    blanks, the zone token is the second-to-last field and the text matched
    against the pattern is the other fields, joined again: the parser is the
    resolver on that field followed by [strptime] on that text. *)
Theorem parse_switch_timestamp_fields (pre : list string) (tz y : string) :
  forallb (free_of " ") (pre ++ [tz; y]) = true ->
  Py.index_m2 (Py.split (Py.join " " (pre ++ [tz; y])) " ") = Ok tz
  /\ new_ts_of (Py.join " " (pre ++ [tz; y])) = Py.join " " (pre ++ [y])
  /\ parse_switch_timestamp (Py.join " " (pre ++ [tz; y]))
     = (let* actual_tz := get_timezone_name tz in
        let* parsed_ts := call_strptime (Py.join " " (pre ++ [y])) switch_format in
        let* offset := call_utcoffset actual_tz parsed_ts in
        let* shifted := naive_sub parsed_ts offset in
        Ok {| wall := shifted; tzoffset := Some 0 |}).
Proof.
  intros Hfree. split; [|split].
  - now rewrite split_joined_fields, index_m2_app.
  - unfold new_ts_of. now rewrite split_joined_fields, slices_app.
  - now apply parse_switch_timestamp_joined.
Qed.

(** X16. The zone token only selects the zone; the offset is the one of
    the zone at the reading.  Two time stamps with the same other fields,
    whose zone tokens are resolved alike, are parsed alike: a date written
    with the summer abbreviation of a zone and the same date written with its
    winter abbreviation give one instant. *)
Theorem parse_switch_timestamp_by_zone (pre : list string) (tz tz' y : string) :
  forallb (free_of " ") (pre ++ [tz; y]) = true ->
  forallb (free_of " ") (pre ++ [tz'; y]) = true ->
  get_timezone_name tz = get_timezone_name tz' ->
  parse_switch_timestamp (Py.join " " (pre ++ [tz; y]))
  = parse_switch_timestamp (Py.join " " (pre ++ [tz'; y])).
Proof.
  intros Hfree Hfree' Hsame.
  rewrite !parse_switch_timestamp_joined by assumption.
  now rewrite Hsame.
Qed.

End ParserOutcomes.

(** ** The registry fetcher *)

Lemma map_raising_Ok (A B : Type) (f : A -> result B) (l : list A) (ys : list B) :
  map_raising f l = Ok ys <-> Forall2 (fun x y => f x = Ok y) l ys.
Proof.
  revert ys. induction l as [|x l IH]; intros ys; simpl.
  - split; [intros [= <-]; constructor | intros H; now inversion H].
  - split.
    + intros H. apply bind_Ok in H. destruct H as (y & Hy & H).
      apply bind_Ok in H. destruct H as (ys' & Hys & [= <-]).
      constructor; [exact Hy | now apply IH].
    + intros H. inversion H as [|x' y l' ys' Hy Hys]; subst.
      rewrite Hy. simpl. rewrite (proj2 (IH ys') Hys). reflexivity.
Qed.

Lemma map_raising_Raise (A B : Type) (f : A -> result B)
    (before after : list A) (x : A) (e : exn) :
  (forall b, In b before -> is_ok (f b) = true) ->
  f x = Raise e ->
  map_raising f (before ++ x :: after) = Raise e.
Proof.
  intros Hbefore Hx. induction before as [|b before IH]; simpl.
  - now rewrite Hx.
  - pose proof (Hbefore b (or_introl eq_refl)) as Hb.
    destruct (f b) as [y|]; [|discriminate]. simpl.
    rewrite IH; [reflexivity|]. intros b' Hin. apply Hbefore. now right.
Qed.

Lemma split_from_nonempty (sep s cur : string) (skip : nat) :
  Py.split_from sep s cur skip <> [].
Proof.
  revert cur skip. induction s as [|c s IH]; intros cur skip.
  - simpl. congruence.
  - cbn [Py.split_from]. destruct skip; [|apply IH].
    destruct (String.prefix sep (String c s)); [congruence | apply IH].
Qed.

Lemma Forall2_In_r (A B : Type) (R : A -> B -> Prop) (l : list A) (l' : list B) (y : B) :
  Forall2 R l l' -> In y l' -> exists x, In x l /\ R x y.
Proof.
  induction 1 as [|x y' l l' Hxy _ IH]; intros Hin; [contradiction|].
  destruct Hin as [->|Hin]; [exists x; simpl; auto|].
  destruct (IH Hin) as (x' & Hx' & HR). exists x'. simpl. auto.
Qed.

Section RegistryFetcher.

Context {tzdb : Pytz} {sets : SetOrder} {dt : Datetime} {net : Remote}.

Lemma entry_window (m : availability_entry) (w : SWITCHMaintenance) :
  (let* from_time := parse_switch_timestamp (dm_from m) in
   let* to_time := parse_switch_timestamp (dm_to m) in
   Ok {| systems := Py.split (dm_concernedSystem m) ", ";
         environment := dm_environment m;
         from_time := from_time;
         to_time := to_time;
         reason := dm_reason m;
         remark := dm_remark m |}) = Ok w
  <-> built_from m w.
Proof.
  unfold built_from. split.
  - intros H. apply bind_Ok in H. destruct H as (f & Hf & H).
    apply bind_Ok in H. destruct H as (t & Ht & [= <-]). simpl. auto 7.
  - destruct w as [sy en fr to re rk]. simpl.
    intros (-> & -> & -> & -> & -> & ->). reflexivity.
Qed.

Lemma get_switch_maintenance_length (data : list availability_entry)
    (ws : list SWITCHMaintenance) :
  switch_status = Ok data ->
  get_switch_maintenance = Ok ws ->
  List.length ws = List.length (filter is_data_message data).
Proof.
  intros Hdata Hws. unfold get_switch_maintenance in Hws.
  rewrite Hdata in Hws. simpl in Hws. apply map_raising_Ok in Hws.
  symmetry. exact (Forall2_length Hws).
Qed.

(** X7. The registry fetcher returns the windows of the entries whose
    type is [DATA_MESSAGE], one per entry and in their order, each with the
    fields of its entry and the two parsed instants; entries of another type
    play no part, whatever their contents. *)
Theorem get_switch_maintenance_Ok_iff (data : list availability_entry)
    (ws : list SWITCHMaintenance) :
  switch_status = Ok data ->
  (get_switch_maintenance = Ok ws
   <-> Forall2 built_from (filter is_data_message data) ws).
Proof.
  intros Hdata. unfold get_switch_maintenance. rewrite Hdata. simpl.
  rewrite map_raising_Ok. fold is_data_message.
  split; intros H; (eapply Forall2_impl; [|exact H]);
    intros m w Hmw; now apply entry_window.
Qed.

(** X8. One time stamp that the parser rejects makes the whole fetch
    raise: when the entries of type [DATA_MESSAGE] before some entry all
    parse, and that entry's [from] raises, or its [from] parses and its [to]
    raises, the fetcher raises that exception and returns no window. *)
Theorem get_switch_maintenance_raises (data before after : list availability_entry)
    (m : availability_entry) (e : exn) :
  switch_status = Ok data ->
  filter is_data_message data = (before ++ m :: after)%list ->
  (forall b, In b before ->
     is_ok (parse_switch_timestamp (dm_from b)) = true
     /\ is_ok (parse_switch_timestamp (dm_to b)) = true) ->
  parse_switch_timestamp (dm_from m) = Raise e
  \/ (is_ok (parse_switch_timestamp (dm_from m)) = true
      /\ parse_switch_timestamp (dm_to m) = Raise e) ->
  get_switch_maintenance = Raise e.
Proof.
  intros Hdata Hsplit Hbefore Hm. unfold get_switch_maintenance.
  rewrite Hdata. simpl. fold is_data_message. rewrite Hsplit.
  apply map_raising_Raise.
  - intros b Hb. destruct (Hbefore b Hb) as [Hf Ht].
    destruct (parse_switch_timestamp (dm_from b)); [|discriminate].
    destruct (parse_switch_timestamp (dm_to b)); [|discriminate].
    reflexivity.
  - destruct Hm as [Hf|[Hf Ht]].
    + now rewrite Hf.
    + destruct (parse_switch_timestamp (dm_from m)); [|discriminate].
      simpl. now rewrite Ht.
Qed.

(** X9. Every window that the registry fetcher returns starts and ends
    at instants tagged UTC within the range of [datetime], and lists at least
    one system (the empty text gives the one system [""]); there are no more
    windows than entries.  Nothing orders the start before the end. *)
Theorem get_switch_maintenance_windows (data : list availability_entry)
    (ws : list SWITCHMaintenance) :
  switch_status = Ok data ->
  get_switch_maintenance = Ok ws ->
  (List.length ws <= List.length data)%nat
  /\ forall w, In w ws ->
       utc_instant (from_time w) /\ utc_instant (to_time w) /\ systems w <> [].
Proof.
  intros Hdata Hws. unfold get_switch_maintenance in Hws.
  rewrite Hdata in Hws. simpl in Hws. apply map_raising_Ok in Hws.
  split.
  - rewrite <- (Forall2_length Hws). apply filter_length_le.
  - intros w Hw. destruct (@Forall2_In_r _ _ _ _ _ w Hws Hw) as (m & _ & Hm).
    apply entry_window in Hm.
    destruct Hm as (Hsys & _ & Hfrom & Hto & _).
    apply parse_switch_timestamp_steps in Hfrom, Hto.
    destruct Hfrom as (? & ? & ? & ? & _ & _ & _ & _ & Hr1 & ->).
    destruct Hto as (? & ? & ? & ? & _ & _ & _ & _ & Hr2 & ->).
    unfold utc_instant. simpl. repeat split; try tauto.
    rewrite Hsys. apply split_from_nonempty.
Qed.

(** X17. The systems of a window are the pieces of [concernedSystem]
    between the occurrences of a comma followed by a blank.  For an entry
    that lists names without commas, joined so, the window built from it is
    kept by the filter of [main] exactly when its environment is
    [production] and [epp.nic.ch] is one of the names. *)
Theorem listed_systems_decide_the_filter (m : availability_entry)
    (w : SWITCHMaintenance) (names : list string) :
  built_from m w ->
  names <> [] ->
  forallb (free_of ",") names = true ->
  dm_concernedSystem m = Py.join ", " names ->
  systems w = names
  /\ (keep_switch w = true
      <-> dm_environment m = "production" /\ In "epp.nic.ch" names).
Proof.
  intros (Hsys & Henv & _) Hne Hfree Htext.
  assert (Hnames : systems w = names).
  { rewrite Hsys, Htext. now apply split_join. }
  split; [exact Hnames|].
  now rewrite keep_switch_spec, Hnames, Henv.
Qed.

(** The next year has the day of this year, unless the day is the 29th of
    February. *)
Lemma next_year_has_the_day (y m d : Z) :
  1 <= d <= Fixture.days_in_month y m ->
  d <= Fixture.days_in_month (y + 1) m <-> ~ (m = 2 /\ d = 29).
Proof.
  unfold Fixture.days_in_month, Fixture.is_leap. intros Hd.
  destruct (Z.eqb_spec m 2) as [->|Hm]; [|tauto].
  destruct (Z.eqb_spec (y mod 4) 0) as [H4|H4];
    destruct (Z.eqb_spec ((y + 1) mod 4) 0) as [H4'|H4'];
    simpl in *;
    try (exfalso; revert H4 H4'; Z.div_mod_to_equations; lia);
    repeat match goal with
           | |- context [if ?b then _ else _] => destruct b
           | H : context [if ?b then _ else _] |- _ => destruct b
           end; lia.
Qed.

(** X10. The fetcher asks the registry for the year that starts today, up
    to the same day of the next year.  On a 29th of February, and in the year
    9999, that day does not exist: [replace] raises and no request is sent.
    On every other day the request is sent, for production, from today to the
    same day and month of the next year. *)
Theorem get_switch_maintenance_on_leap_day (today : date) :
  date_ok today = true ->
  (get_switch_maintenance_on today = NotSent
   <-> (month today = 2 /\ day today = 29) \/ year today = 9999)
  /\ forall params value,
       get_switch_maintenance_on today = Sent params value ->
       value = get_switch_maintenance
       /\ params = {| param_environment := "production";
                      param_start := strftime_dmY today;
                      param_end :=
                        strftime_dmY {| year := year today + 1;
                                        month := month today;
                                        day := day today |} |}.
Proof.
  destruct today as [y m d]. unfold date_ok. simpl.
  rewrite !andb_true_iff, !Z.leb_le. intros (((((Hy1 & Hy2) & Hm1) & Hm2) & Hd1) & Hd2).
  pose proof (next_year_has_the_day y m (conj Hd1 Hd2)) as Hnext.
  unfold get_switch_maintenance_on, switch_status_params, replace_year, date_ok.
  simpl.
  destruct ((1 <=? y + 1) && (y + 1 <=? 9999) && (1 <=? m) && (m <=? 12)
            && (1 <=? d) && (d <=? Fixture.days_in_month (y + 1) m)) eqn:Hok.
  - rewrite !andb_true_iff, !Z.leb_le in Hok.
    destruct Hok as (((((_ & Hy3) & _) & _) & _) & Hd3).
    split.
    + split; [discriminate|]. intros [Hleap|Hlast]; [|lia].
      apply Hnext in Hd3. tauto.
    + intros params value [= <- <-]. split; reflexivity.
  - split; [|discriminate]. split; [|reflexivity]. intros _.
    destruct (Z.eq_dec y 9999) as [->|Hny]; [now right|]. left.
    destruct (Z.eq_dec m 2) as [->|Hm]; [|].
    + split; [reflexivity|].
      destruct (Z.eq_dec d 29) as [->|Hd]; [reflexivity|].
      exfalso. assert (Hd3 : d <= Fixture.days_in_month (y + 1) 2) by (apply Hnext; tauto).
      rewrite <- not_true_iff_false in Hok. apply Hok.
      rewrite !andb_true_iff, !Z.leb_le. lia.
    + exfalso. assert (Hd3 : d <= Fixture.days_in_month (y + 1) m) by (apply Hnext; tauto).
      rewrite <- not_true_iff_false in Hok. apply Hok.
      rewrite !andb_true_iff, !Z.leb_le. lia.
Qed.

End RegistryFetcher.

(** ** More on the status-page fetcher *)

Section FetcherOutcomes.

Context {net : Remote}.

(** X11. The status-page fetcher reads page 1 and nothing else.  When
    the request for page 1 raises, the fetcher raises that; when page 1 holds
    a number of entries other than 100, the fetcher returns, after that one
    request, the entries of page 1 whose impact is [maintenance], in their
    order; when page 1 holds 100 entries, the fetcher asks for page 1 again
    and again and never returns. *)
Theorem get_statuspage_maintenance_outcome (fuel : nat) :
  get_statuspage_maintenance (S fuel)
  = match statuspage_get 1 with
    | Raise e => ([1], Raises e)
    | Ok page_1 =>
        if Nat.eqb (List.length page_1) 100
        then (repeat 1 (S fuel), Running)
        else ([1],
              Returns (filter (fun e => String.eqb (inc_impact e) "maintenance") page_1))
    end.
Proof.
  unfold get_statuspage_maintenance.
  destruct (statuspage_get 1) as [page_1|e] eqn:Hget.
  - destruct (Nat.eqb_spec (List.length page_1) 100) as [Hlen|Hlen].
    + now rewrite (statuspage_loop_full_first_page Hget Hlen).
    + now rewrite (statuspage_loop_short_first_page Hget Hlen).
  - simpl. rewrite Hget. reflexivity.
Qed.

End FetcherOutcomes.

(** ** More on the reconciler *)

Lemma forallb_same_members (A : Type) (f : A -> bool) (l l' : list A) :
  (forall x, In x l <-> In x l') -> forallb f l = forallb f l'.
Proof.
  intros Hsame. apply eq_iff_eq_true. rewrite !forallb_forall.
  split; intros H x Hx; apply H, Hsame, Hx.
Qed.

Section ReconcilerOutcomes.

Context {tzdb : Pytz} {sets : SetOrder} {dt : Datetime} {net : Remote}.

Variable cfg : secrets.

Lemma main_loop_app (before after : list SWITCHMaintenance) (sp : list incident) :
  main_loop cfg (before ++ after) sp
  = match main_loop cfg before sp with
    | (sent, Ok _) =>
        (sent ++ fst (main_loop cfg after sp), snd (main_loop cfg after sp))%list
    | (sent, Raise e) => (sent, Raise e)
    end.
Proof.
  induction before as [|w before IH]; simpl.
  - now destruct (main_loop cfg after sp).
  - destruct (scan_incidents w sp None) as [m|e]; [|reflexivity].
    destruct (statuspage_send (make_request cfg w m)) as [u|e]; [|reflexivity].
    rewrite IH. destruct (main_loop cfg before sp) as [sent [[]|e]]; reflexivity.
Qed.

Lemma main_loop_accepted (ws : list SWITCHMaintenance) (sp : list incident) :
  forallb readable sp = true ->
  (forall w, In w ws ->
     statuspage_send (make_request cfg w (last_match w sp)) = Ok tt) ->
  main_loop cfg ws sp
  = (map (fun w => make_request cfg w (last_match w sp)) ws, Ok tt).
Proof.
  intros Hread Hsend. induction ws as [|w ws IH]; [reflexivity|].
  simpl main_loop. rewrite scan_incidents_spec, Hread.
  replace (match last_match w sp with Some m => Some m | None => None end)
    with (last_match w sp) by now destruct (last_match w sp).
  rewrite (Hsend w (or_introl eq_refl)).
  rewrite IH; [reflexivity|]. intros w' Hw'. apply Hsend. now right.
Qed.

(** X12. A refused write ends the run.  When every start can be read,
    the writes of the windows before some window are accepted and the write of
    that window is refused, the requests sent are those of the windows up to
    and including that one, in order; the run raises what the refusal raised,
    and the windows after it get no request. *)
Theorem refused_write_ends_the_run (before after : list SWITCHMaintenance)
    (w : SWITCHMaintenance) (sp : list incident) (e : exn) :
  forallb readable sp = true ->
  (forall b, In b before ->
     statuspage_send (make_request cfg b (last_match b sp)) = Ok tt) ->
  statuspage_send (make_request cfg w (last_match w sp)) = Raise e ->
  main_loop cfg (before ++ w :: after) sp
  = (map (fun b => make_request cfg b (last_match b sp)) (before ++ [w]), Raise e).
Proof.
  intros Hread Hbefore Hw.
  rewrite main_loop_app, main_loop_accepted by assumption.
  simpl main_loop. rewrite scan_incidents_spec, Hread.
  replace (match last_match w sp with Some m => Some m | None => None end)
    with (last_match w sp) by now destruct (last_match w sp).
  rewrite Hw. simpl. now rewrite map_app.
Qed.

(** X13. One start that cannot be read stops every write.  When some
    scheduled incident has a [scheduled_for] that [fromisoformat] rejects and
    some window is kept, the run sends nothing and raises the [ValueError] of
    [fromisoformat], whether or not that incident matters to any window.
    With no kept window the incidents are not read at all: the run sends
    nothing and ends well. *)
Theorem unreadable_start_stops_every_write (ws : list SWITCHMaintenance)
    (sp : list incident) :
  ((exists m, In m sp /\ inc_status m = "scheduled" /\ readable m = false) ->
   (exists w, In w ws /\ keep_switch w = true) ->
   reconcile cfg ws sp = ([], Raise ValueError_fromisoformat))
  /\ ((forall w, In w ws -> keep_switch w = false) ->
      reconcile cfg ws sp = ([], Ok tt)).
Proof.
  unfold reconcile. split.
  - intros (m & Hm & Hsched & Hbad) (w & Hw & Hkeep).
    assert (Hread : forallb readable (filter keep_statuspage sp) = false).
    { apply not_true_iff_false. intros Hall.
      rewrite forallb_forall in Hall.
      rewrite (Hall m) in Hbad; [discriminate|].
      apply filter_In. split; [exact Hm | now apply keep_statuspage_spec]. }
    destruct (filter keep_switch ws) as [|w' ws'] eqn:Hkept.
    + assert (Hin : In w (filter keep_switch ws)) by (apply filter_In; auto).
      rewrite Hkept in Hin. contradiction.
    + simpl main_loop. now rewrite scan_incidents_spec, Hread.
  - intros Hnone.
    replace (filter keep_switch ws) with (@nil SWITCHMaintenance); [reflexivity|].
    symmetry. induction ws as [|w ws IH]; [reflexivity|]. simpl.
    rewrite (Hnone w (or_introl eq_refl)). apply IH.
    intros w' Hw'. apply Hnone. now right.
Qed.

Lemma starts_at_same_start (w : SWITCHMaintenance) (m1 m2 : incident) :
  starts_at w m1 = true -> starts_at w m2 = true -> same_start m1 m2 = true.
Proof.
  unfold starts_at, same_start.
  destruct (parsed_start m1) as [d1|]; [|discriminate].
  destruct (parsed_start m2) as [d2|]; [|discriminate].
  intros H1 H2. rewrite datetime_eqb_sym in H2.
  exact (datetime_eqb_trans _ _ _ H1 H2).
Qed.

Lemma last_match_same_members (w : SWITCHMaintenance) (l l' : list incident) :
  (forall m, In m l <-> In m l') ->
  (forall m1 m2, In m1 l -> In m2 l -> same_start m1 m2 = true -> m1 = m2) ->
  last_match w l = last_match w l'.
Proof.
  intros Hsame Hdistinct.
  destruct (last_match w l) as [m|] eqn:Hl.
  - apply last_match_In in Hl. destruct Hl as [Hin Hstart].
    destruct (last_match w l') as [m'|] eqn:Hl'.
    + apply last_match_In in Hl'. destruct Hl' as [Hin' Hstart'].
      f_equal. apply Hdistinct; [exact Hin | now apply Hsame |].
      now apply starts_at_same_start with w.
    + rewrite (proj1 (last_match_None w l') Hl' m) in Hstart; [discriminate|].
      now apply Hsame.
  - symmetry. apply last_match_None. intros m Hin.
    apply (proj1 (last_match_None w l) Hl). now apply Hsame.
Qed.

Lemma main_loop_same_incidents (ws : list SWITCHMaintenance) (l l' : list incident) :
  forallb readable l = forallb readable l' ->
  (forall w, last_match w l = last_match w l') ->
  main_loop cfg ws l = main_loop cfg ws l'.
Proof.
  intros Hread Hlast. induction ws as [|w ws IH]; [reflexivity|].
  simpl main_loop. now rewrite !scan_incidents_spec, Hread, Hlast, IH.
Qed.

(** X14. The order of the incidents matters only among equal starts.
    When no two scheduled incidents start at the same instant, a run depends
    on which incidents the status page holds, not on their order nor on how
    often each is listed: two lists with the same members give the same
    requests and the same end. *)
Theorem incident_order_matters_only_among_equal_starts
    (ws : list SWITCHMaintenance) (sp sp' : list incident) :
  (forall m, In m sp <-> In m sp') ->
  (forall m1 m2, In m1 sp -> In m2 sp ->
     inc_status m1 = "scheduled" -> inc_status m2 = "scheduled" ->
     same_start m1 m2 = true -> m1 = m2) ->
  reconcile cfg ws sp = reconcile cfg ws sp'.
Proof.
  intros Hsame Hdistinct. unfold reconcile.
  assert (Hkept : forall m, In m (filter keep_statuspage sp)
                            <-> In m (filter keep_statuspage sp')).
  { intros m. rewrite !filter_In, Hsame. reflexivity. }
  apply main_loop_same_incidents.
  - now apply forallb_same_members.
  - intros w. apply last_match_same_members; [exact Hkept|].
    intros m1 m2 H1 H2. apply filter_In in H1, H2.
    destruct H1 as [H1 S1], H2 as [H2 S2].
    apply keep_statuspage_spec in S1, S2. now apply Hdistinct.
Qed.

Lemma main_loop_length (ws : list SWITCHMaintenance) (sp : list incident) :
  (List.length (fst (main_loop cfg ws sp)) <= List.length ws)%nat.
Proof.
  destruct (main_loop_sent cfg ws sp) as (n & -> & _).
  rewrite length_map, length_firstn. lia.
Qed.

(** X15. [main] writes only after both fetches.  When the registry
    fetch raises, [main] raises the same and sends nothing; whatever happens,
    it sends at most one request per [DATA_MESSAGE] entry of the registry's
    answer; and when it sends anything, the registry fetch has returned its
    windows, the status-page fetch has returned its incidents, and the
    requests are those of the reconciliation of the two. *)
Theorem main_writes_after_both_fetches (fuel : nat) :
  (forall e, get_switch_maintenance = Raise e -> main cfg fuel = ([], Raises e))
  /\ (forall data, switch_status = Ok data ->
        (List.length (fst (main cfg fuel))
         <= List.length (filter is_data_message data))%nat)
  /\ (fst (main cfg fuel) <> [] ->
      exists ws requested sp,
        get_switch_maintenance = Ok ws
        /\ get_statuspage_maintenance fuel = (requested, Returns sp)
        /\ fst (main cfg fuel) = fst (reconcile cfg ws sp)).
Proof.
  unfold main. split; [|split].
  - now intros e ->.
  - intros data Hdata.
    destruct get_switch_maintenance as [ws|e] eqn:Hws; [|simpl; lia].
    rewrite <- (get_switch_maintenance_length Hdata Hws).
    destruct (snd (get_statuspage_maintenance fuel)) as [sp| |]; try (simpl; lia).
    destruct (reconcile cfg ws sp) as [sent res] eqn:Hrec. simpl.
    assert (Hsent : sent = fst (reconcile cfg ws sp)) by now rewrite Hrec.
    rewrite Hsent. unfold reconcile.
    etransitivity; [apply main_loop_length | apply filter_length_le].
  - destruct get_switch_maintenance as [ws|e]; [|simpl; congruence].
    destruct (get_statuspage_maintenance fuel) as [requested [sp| |]];
      simpl; try congruence.
    intros _. exists ws, requested, sp.
    destruct (reconcile cfg ws sp) as [sent res]. auto.
Qed.

End ReconcilerOutcomes.

(** * Worked examples *)

(** ** The built-ins *)

Example split_on_blanks :
  Py.split "Mon Jul 01 10:00:00 CEST 2024" " "
  = ["Mon"; "Jul"; "01"; "10:00:00"; "CEST"; "2024"].
Proof. reflexivity. Qed.

Example split_keeps_empty_pieces : Py.split "a  b " " " = ["a"; ""; "b"; ""].
Proof. reflexivity. Qed.

Example split_of_empty : Py.split "" " " = [""].
Proof. reflexivity. Qed.

Example split_systems :
  Py.split "epp.nic.ch, rdap.nic.ch,x" ", " = ["epp.nic.ch"; "rdap.nic.ch,x"].
Proof. reflexivity. Qed.

Example int_of_tokens :
  map Py.int ["2"; "+2"; "-11"; "0"; "1_0"; " 7"; "CEST"; ""; "-"; "1__0"; "_1"; "1_"]
  = [Some 2; Some 2; Some (-11); Some 0; Some 10; Some 7;
     None; None; None; None; None; None].
Proof. reflexivity. Qed.

Example int_keeps_separators :
  Py.int (String (ascii_of_nat 28) "7") = None
  /\ Py.int (String (ascii_of_nat 9) "7") = Some 7
  /\ Py.int ("7" ++ String (ascii_of_nat 31) "") = None.
Proof. repeat split. Qed.

Example str_of_ints : map Py.str [2; -11; 0; 120] = ["2"; "-11"; "0"; "120"].
Proof. reflexivity. Qed.

Example upper_of_token : Py.upper "cEsT+1" = "CEST+1".
Proof. reflexivity. Qed.

Example zone_token_and_date_text :
  Py.index_m2 (Py.split "Mon Jul 01 10:00:00 CEST 2024" " ") = Ok "CEST"
  /\ new_ts_of "Mon Jul 01 10:00:00 CEST 2024" = "Mon Jul 01 10:00:00 2024"
  /\ Py.index_m2 (Py.split "2024" " ") = Raise IndexError.
Proof. repeat split. Qed.

(** ** The resolver and the parser on the fixture *)

#[local] Existing Instance Fixture.pytz_lib.
#[local] Existing Instance Fixture.datetime_lib.
#[local] Existing Instance Fixture.as_added.

Example resolve_listed_name :
  get_timezone_name "Europe/Zurich" = Ok (TzInfo Fixture.Europe_Zurich).
Proof. reflexivity. Qed.

Example resolve_abbreviation :
  get_timezone_name "cest" = Ok (TzInfo Fixture.CET).
Proof. reflexivity. Qed.

Example resolve_integers :
  map (fun s => resolved_name (get_timezone_name s)) ["2"; "+2"; "-3"; "0"; "-0"]
  = [Ok "Etc/GMT+2"; Ok "Etc/GMT+2"; Ok "Etc/GMT-3"; Ok "Etc/GMT0"; Ok "Etc/GMT0"].
Proof. vm_compute. reflexivity. Qed.

Example parse_summer :
  parse_switch_timestamp "Mon Jul 01 10:00:00 CEST 2024" = Ok (Fixture.utc 2024 7 1 8 0 0).
Proof. vm_compute. reflexivity. Qed.

Example parse_winter :
  parse_switch_timestamp "Mon Jan 15 10:00:00 Europe/Zurich 2024"
  = Ok (Fixture.utc 2024 1 15 9 0 0).
Proof. vm_compute. reflexivity. Qed.

(** A reading in the hour that is read twice, a reading that the zone skips,
    and a result before [datetime.min]. *)
Example parse_repeated_hour :
  parse_switch_timestamp "Sun Oct 27 02:30:00 CEST 2024" = Raise InvalidTimeError.
Proof. vm_compute. reflexivity. Qed.

Example parse_skipped_hour :
  parse_switch_timestamp "Sun Mar 31 02:30:00 Europe/Zurich 2024" = Raise InvalidTimeError.
Proof. vm_compute. reflexivity. Qed.

Example parse_before_min :
  parse_switch_timestamp "Mon Jan 01 00:30:00 CET 0001" = Raise OverflowError.
Proof. vm_compute. reflexivity. Qed.

(** C2 on the token [+2]. *)
Lemma numeric_token_resolves_to_text_witness :
  get_timezone_name "+2" = Ok (TzStr "Etc/GMT+2")
  /\ (forall t, call_utcoffset (TzStr "Etc/GMT+2") t = Raise AttributeError)
  /\ (parse_switch_timestamp "Mon Jul 01 10:00:00 +2 2024" = Raise ValueError_strptime
      \/ parse_switch_timestamp "Mon Jul 01 10:00:00 +2 2024" = Raise AttributeError).
Proof.
  apply (@numeric_token_resolves_to_text _ _ _ "Mon Jul 01 10:00:00 +2 2024" "+2" 2);
    reflexivity.
Defined.

Example parse_numeric_token :
  parse_switch_timestamp "Mon Jul 01 10:00:00 +2 2024" = Raise AttributeError
  /\ parse_switch_timestamp "Mon Jul 01 10:00:00 -3 2024" = Raise AttributeError
  /\ parse_switch_timestamp "Mon Jul 01 10:00:00 0 2024" = Raise AttributeError.
Proof. vm_compute. repeat split. Qed.

(** C4 on [CST], used by [PRC] and [ROC], whose names are equally long. *)
Lemma abbreviation_resolves_to_a_shortest_zone_witness :
  exists z,
    get_timezone_name "CST" = Ok (TzInfo z)
    /\ (exists name, In name all_timezones /\ z = pytz_timezone name
                     /\ uses_abbreviation "CST" z = true)
    /\ (forall name, In name all_timezones ->
          uses_abbreviation "CST" (pytz_timezone name) = true ->
          (Py.len (zone z) <= Py.len (zone (pytz_timezone name)))%nat)
    /\ (exists before after,
          set_iter (scan_zones "CST") = (before ++ z :: after)%list
          /\ forall x, In x before -> (Py.len (zone z) < Py.len (zone x))%nat)
    /\ ((forall name, In name all_timezones ->
           uses_abbreviation "CST" (pytz_timezone name) = true ->
           Py.len (zone (pytz_timezone name)) = Py.len (zone z) ->
           pytz_timezone name = z) ->
        forall sets' : SetOrder,
          get_timezone_name (sets := sets') "CST" = Ok (TzInfo z)).
Proof.
  apply (@abbreviation_resolves_to_a_shortest_zone _ _ "CST");
    [reflexivity | reflexivity |].
  exists "PRC". split; [simpl; auto | reflexivity].
Defined.

Example resolve_unique_shortest :
  resolved_name (get_timezone_name (sets := Fixture.as_added) "CEST") = Ok "CET"
  /\ resolved_name (get_timezone_name (sets := Fixture.reversed) "CEST") = Ok "CET".
Proof. vm_compute. split; reflexivity. Qed.

(** C4 fails on the code.  [CST] is no listed name and no integer; [PRC] and
    [ROC] have both used it and their names are equally long; the zone
    returned is the one that the set happens to yield first. *)
Lemma tie_break_follows_set_order :
  existsb (String.eqb "CST") all_timezones = false
  /\ Py.int "CST" = None
  /\ uses_abbreviation "CST" Fixture.PRC = true
  /\ uses_abbreviation "CST" Fixture.ROC = true
  /\ Py.len (zone Fixture.PRC) = Py.len (zone Fixture.ROC)
  /\ resolved_name (get_timezone_name (sets := Fixture.as_added) "CST") = Ok "PRC"
  /\ resolved_name (get_timezone_name (sets := Fixture.reversed) "CST") = Ok "ROC"
  /\ resolved_name (get_timezone_name (sets := Fixture.as_added) "CST")
     <> resolved_name (get_timezone_name (sets := Fixture.reversed) "CST").
Proof. vm_compute. repeat split. discriminate. Qed.

(** C5 on a summer date in a zone that observes summer time: the offset is
    that of summer, not the one of January. *)
Lemma parse_switch_timestamp_zone_witness :
  utcoffset Fixture.CET (Fixture.civil 2024 7 1 10 0 0) = Ok (2 * Fixture.hour)
  /\ utcoffset Fixture.CET (Fixture.civil 2024 1 15 10 0 0) = Ok Fixture.hour
  /\ parse_switch_timestamp "Mon Jul 01 10:00:00 CEST 2024"
     = Ok {| wall := Fixture.civil 2024 7 1 10 0 0 - 2 * Fixture.hour;
             tzoffset := Some 0 |}.
Proof.
  split; [reflexivity|]. split; [reflexivity|].
  apply (@parse_switch_timestamp_zone _ _ _
           "Mon Jul 01 10:00:00 CEST 2024" "CEST" Fixture.CET
           (Fixture.civil 2024 7 1 10 0 0) (2 * Fixture.hour));
    try reflexivity.
  vm_compute. split; discriminate.
Defined.

(** C5 fails on the code: a token that is an integer stops the parser, and
    so does a reading in the hour that a zone reads twice. *)
Lemma parse_switch_timestamp_resolvable_but_raises :
  strptime (new_ts_of "Mon Jul 01 10:00:00 +2 2024") switch_format
  = Some (Fixture.civil 2024 7 1 10 0 0)
  /\ resolved_name (get_timezone_name "+2") = Ok "Etc/GMT+2"
  /\ parse_switch_timestamp "Mon Jul 01 10:00:00 +2 2024" = Raise AttributeError
  /\ strptime (new_ts_of "Sun Oct 27 02:30:00 CEST 2024") switch_format
     = Some (Fixture.civil 2024 10 27 2 30 0)
  /\ resolved_name (get_timezone_name "CEST") = Ok "CET"
  /\ parse_switch_timestamp "Sun Oct 27 02:30:00 CEST 2024" = Raise InvalidTimeError.
Proof. vm_compute. repeat split. Qed.

(** C6 on the token [ZZZ]. *)
Lemma unresolvable_token_raises_witness :
  get_timezone_name "ZZZ" = Raise ValueError_min
  /\ forall ts, Py.index_m2 (Py.split ts " ") = Ok "ZZZ" ->
                parse_switch_timestamp ts = Raise ValueError_min.
Proof.
  apply (@unresolvable_token_raises _ _ _ "ZZZ"); [reflexivity | reflexivity |].
  intros name Hin. simpl in Hin.
  repeat (destruct Hin as [<-|Hin]; [reflexivity|]). contradiction.
Defined.

Example parse_unknown_zone :
  parse_switch_timestamp "Mon Jul 01 10:00:00 ZZZ 2024" = Raise ValueError_min.
Proof. vm_compute. reflexivity. Qed.

(** C9 on a weekday that is none, with a zone that resolves. *)
Lemma malformed_timestamp_raises_witness :
  strptime (new_ts_of "Xxx Jul 01 10:00:00 CEST 2024") switch_format = None
  /\ parse_switch_timestamp "Xxx Jul 01 10:00:00 CEST 2024" = Raise ValueError_strptime.
Proof.
  assert (Hno : strptime (new_ts_of "Xxx Jul 01 10:00:00 CEST 2024") switch_format = None)
    by reflexivity.
  split; [exact Hno|].
  apply (proj1 (proj2 (@malformed_timestamp_raises _ _ _
                         "Xxx Jul 01 10:00:00 CEST 2024" Hno))
           "CEST" (TzInfo Fixture.CET)); reflexivity.
Defined.

(** C9 fails on the code: the date text fails the pattern, and what the
    parser raises is the failure of the resolver, which ran first. *)
Lemma unresolved_zone_comes_before_the_pattern :
  strptime (new_ts_of "Xxx Jul 01 10:00:00 ZZZ 2024") switch_format = None
  /\ parse_switch_timestamp "Xxx Jul 01 10:00:00 ZZZ 2024" = Raise ValueError_min
  /\ parse_switch_timestamp "Xxx Jul 01 10:00:00 ZZZ 2024" <> Raise ValueError_strptime.
Proof. vm_compute. repeat split. discriminate. Qed.

Example parse_single_token :
  strptime (new_ts_of "2024") switch_format = None
  /\ parse_switch_timestamp "2024" = Raise IndexError.
Proof. vm_compute. repeat split. Qed.

(** ** The fetcher and the reconciler on the fixture *)

(** C3 on a full first page with nothing on page 2. *)
Lemma get_statuspage_maintenance_full_first_page_witness :
  List.length (Fixture.full_first_page 1) = 100%nat
  /\ Fixture.full_first_page 2 = []
  /\ get_statuspage_maintenance (net := Fixture.remote [] Fixture.full_first_page) 7
     = (repeat 1 7, Running).
Proof.
  split; [reflexivity|]. split; [reflexivity|].
  apply (@get_statuspage_maintenance_full_first_page
           (Fixture.remote [] Fixture.full_first_page)
           (Fixture.full_first_page 1));
    reflexivity.
Defined.

Example fetch_full_first_page_five_requests :
  fst (get_statuspage_maintenance (net := Fixture.remote [] Fixture.full_first_page) 5)
  = [1; 1; 1; 1; 1].
Proof. reflexivity. Qed.

Example fetch_short_first_page :
  get_statuspage_maintenance
    (net := Fixture.remote [] (Fixture.one_page [Fixture.july_a; Fixture.july_outage])) 3
  = ([1], Returns [Fixture.july_a]).
Proof. reflexivity. Qed.

(** C1 on two windows against three incidents, two of which start with the
    first window. *)
Lemma reconciler_one_write_per_window_witness :
  exists intents,
    main_loop (net := Fixture.remote [] (Fixture.one_page [])) Fixture.keys
      [Fixture.july_window; Fixture.august_window]
      [Fixture.july_a; Fixture.july_b; Fixture.september]
    = (map (fun i =>
              match i with
              | Create p =>
                  POST ("https://api.statuspage.io/v1/pages/"
                        ++ STATUSPAGE_PAGE_ID Fixture.keys ++ "/incidents")
                       ("OAuth " ++ STATUSPAGE_API_KEY Fixture.keys) p
              | Update id p =>
                  PATCH ("https://api.statuspage.io/v1/pages/"
                         ++ STATUSPAGE_PAGE_ID Fixture.keys ++ "/incidents/" ++ id)
                        ("OAuth " ++ STATUSPAGE_API_KEY Fixture.keys) p
              end) intents,
       Ok tt)
    /\ Forall2
         (fun w i =>
            exists p, payload_for Fixture.keys w p
                      /\ i = match last_match w
                                     [Fixture.july_a; Fixture.july_b; Fixture.september] with
                             | Some m => Update (inc_id m) p
                             | None => Create p
                             end)
         [Fixture.july_window; Fixture.august_window] intents.
Proof.
  apply (@reconciler_one_write_per_window _
           (Fixture.remote [] (Fixture.one_page [])) Fixture.keys
           [Fixture.july_window; Fixture.august_window]
           [Fixture.july_a; Fixture.july_b; Fixture.september]).
  - reflexivity.
  - intros r. reflexivity.
Defined.

Example reconcile_requests_spelled_out :
  map (fun r => match r with
                | PATCH url auth _ => ("PATCH", url, auth)
                | POST url auth _ => ("POST", url, auth)
                end)
    (fst (main_loop (net := Fixture.remote [] (Fixture.one_page [])) Fixture.keys
            [Fixture.july_window; Fixture.august_window]
            [Fixture.july_a; Fixture.july_b; Fixture.september]))
  = [("PATCH", "https://api.statuspage.io/v1/pages/p/incidents/def", "OAuth k");
     ("POST", "https://api.statuspage.io/v1/pages/p/incidents", "OAuth k")].
Proof. vm_compute. reflexivity. Qed.

Example reconcile_update_then_create :
  main_loop (net := Fixture.remote [] (Fixture.one_page [])) Fixture.keys
    [Fixture.july_window; Fixture.august_window]
    [Fixture.july_a; Fixture.july_b; Fixture.september]
  = ([request_of Fixture.keys
        (Update "def" (make_incident_data Fixture.keys Fixture.july_window));
      request_of Fixture.keys
        (Create (make_incident_data Fixture.keys Fixture.august_window))],
     Ok tt).
Proof. vm_compute. reflexivity. Qed.

Example july_payload :
  make_incident_data Fixture.keys Fixture.july_window
  = {| scheduled_for := "2024-07-01T08:00:00+00:00";
       scheduled_until := "2024-07-01T10:00:00+00:00";
       component_ids := ["c"];
       name := "SWITCH Maintenance";
       status := "scheduled";
       body := "The registry for .ch and .li domains will be undergoing maintenance. Expect an inability to manage, register, or transfer domains with these extensions.";
       impact_override := "maintenance";
       scheduled_auto_in_progress := true;
       scheduled_auto_completed := true;
       auto_transition_to_maintenance_state := true;
       auto_transition_to_operational_state := true;
       auto_tweet_on_creation := true;
       auto_tweet_one_hour_before := true;
       auto_tweet_at_beginning := true;
       auto_tweet_on_completion := true |}.
Proof. vm_compute. reflexivity. Qed.

(** A refused write is the last request of the run. *)
Example reconcile_refused :
  main_loop (net := Fixture.refusing) Fixture.keys
    [Fixture.july_window; Fixture.august_window] [Fixture.july_a]
  = ([request_of Fixture.keys
        (Update "abc" (make_incident_data Fixture.keys Fixture.july_window))],
     Raise HTTPError).
Proof. vm_compute. reflexivity. Qed.

(** C7 on a test window between two kept windows. *)
Lemma filters_gate_the_writes_witness :
  reconcile (net := Fixture.remote [] (Fixture.one_page [])) Fixture.keys
    [Fixture.july_window; Fixture.test_window; Fixture.august_window]
    [Fixture.july_a; Fixture.july_done]
  = reconcile (net := Fixture.remote [] (Fixture.one_page [])) Fixture.keys
      [Fixture.july_window; Fixture.august_window]
      [Fixture.july_a; Fixture.july_done].
Proof.
  apply (proj1 (@filters_gate_the_writes _
                  (Fixture.remote [] (Fixture.one_page [])) Fixture.keys
                  [Fixture.july_window; Fixture.test_window; Fixture.august_window]
                  [Fixture.july_a; Fixture.july_done])
           [Fixture.july_window] Fixture.test_window [Fixture.august_window]).
  - reflexivity.
  - left. discriminate.
Defined.

Example reconcile_skips_other_windows :
  reconcile (net := Fixture.remote [] (Fixture.one_page [])) Fixture.keys
    [Fixture.rdap_window; Fixture.test_window] [Fixture.july_a]
  = ([], Ok tt).
Proof. reflexivity. Qed.

Example reconcile_skips_unscheduled_incidents :
  reconcile (net := Fixture.remote [] (Fixture.one_page [])) Fixture.keys
    [Fixture.july_window] [Fixture.july_done]
  = ([request_of Fixture.keys
        (Create (make_incident_data Fixture.keys Fixture.july_window))],
     Ok tt).
Proof. vm_compute. reflexivity. Qed.

(** C8 on a first run that updates one incident and creates one, after which
    the status page holds both. *)
Lemma second_run_creates_nothing_witness :
  forallb is_patch
    (fst (reconcile (net := Fixture.remote [] (Fixture.one_page [])) Fixture.keys
            [Fixture.july_window; Fixture.test_window; Fixture.august_window]
            [Fixture.july_b; Fixture.august_created])) = true
  /\ (forallb readable (filter keep_statuspage [Fixture.july_b; Fixture.august_created]) = true ->
      (forall r, statuspage_send (Remote := Fixture.remote [] (Fixture.one_page [])) r = Ok tt) ->
      snd (reconcile (net := Fixture.remote [] (Fixture.one_page [])) Fixture.keys
             [Fixture.july_window; Fixture.test_window; Fixture.august_window]
             [Fixture.july_b; Fixture.august_created]) = Ok tt
      /\ List.length
           (fst (reconcile (net := Fixture.remote [] (Fixture.one_page [])) Fixture.keys
                   [Fixture.july_window; Fixture.test_window; Fixture.august_window]
                   [Fixture.july_b; Fixture.august_created]))
         = List.length
             (filter keep_switch
                [Fixture.july_window; Fixture.test_window; Fixture.august_window])).
Proof.
  apply (@second_run_creates_nothing _
           (Fixture.remote [] (Fixture.one_page [])) Fixture.keys
           [Fixture.july_window; Fixture.test_window; Fixture.august_window]
           [Fixture.july_a]
           [Fixture.july_b; Fixture.august_created]
           [request_of Fixture.keys
              (Update "abc" (make_incident_data Fixture.keys Fixture.july_window));
            request_of Fixture.keys
              (Create (make_incident_data Fixture.keys Fixture.august_window))]).
  - reflexivity.
  - reflexivity.
  - intros m [<-|[]] _. exists Fixture.july_b.
    split; [simpl; auto|]. split; reflexivity.
  - intros url auth p [H|[H|[]]]; [discriminate|].
    injection H as _ _ <-. exists Fixture.august_created.
    split; [simpl; auto|]. split; reflexivity.
Defined.

Example second_run_sends_updates :
  reconcile (net := Fixture.remote [] (Fixture.one_page [])) Fixture.keys
    [Fixture.july_window; Fixture.test_window; Fixture.august_window]
    [Fixture.july_b; Fixture.august_created]
  = ([request_of Fixture.keys
        (Update "def" (make_incident_data Fixture.keys Fixture.july_window));
      request_of Fixture.keys
        (Update "pqr" (make_incident_data Fixture.keys Fixture.august_window))],
     Ok tt).
Proof. vm_compute. reflexivity. Qed.

(** C10 on an outage that starts with the July window. *)
Lemma other_impacts_are_never_matched_witness :
  exists fetched,
    get_statuspage_maintenance
      (net := Fixture.remote [] (Fixture.one_page [Fixture.july_outage; Fixture.september])) 1
    = ([1], Returns fetched)
    /\ (forall e, In e fetched
                  <-> In e [Fixture.july_outage; Fixture.september]
                      /\ inc_impact e = "maintenance")
    /\ (forall ws r,
          In r (fst (reconcile
                       (net := Fixture.remote []
                                 (Fixture.one_page [Fixture.july_outage; Fixture.september]))
                       Fixture.keys ws fetched)) ->
          exists w,
            In w ws
            /\ (r = request_of Fixture.keys (Create (make_incident_data Fixture.keys w))
                \/ exists m,
                     In m [Fixture.july_outage; Fixture.september]
                     /\ inc_impact m = "maintenance"
                     /\ inc_status m = "scheduled" /\ starts_at w m = true
                     /\ r = request_of Fixture.keys
                              (Update (inc_id m) (make_incident_data Fixture.keys w))))
    /\ (forall ws w,
          In w ws -> keep_switch w = true ->
          (forall e, In e [Fixture.july_outage; Fixture.september] ->
                     inc_status e = "scheduled" -> starts_at w e = true ->
                     inc_impact e <> "maintenance") ->
          forallb readable (filter keep_statuspage fetched) = true ->
          (forall r, statuspage_send
                       (Remote := Fixture.remote []
                                    (Fixture.one_page [Fixture.july_outage; Fixture.september]))
                       r = Ok tt) ->
          In (request_of Fixture.keys (Create (make_incident_data Fixture.keys w)))
             (fst (reconcile
                     (net := Fixture.remote []
                               (Fixture.one_page [Fixture.july_outage; Fixture.september]))
                     Fixture.keys ws fetched))).
Proof.
  apply (@other_impacts_are_never_matched _
           (Fixture.remote [] (Fixture.one_page [Fixture.july_outage; Fixture.september]))
           Fixture.keys 1 [1] [Fixture.july_outage; Fixture.september]).
  reflexivity.
Defined.

(** ** [main], end to end *)

Example main_creates :
  main (net := Fixture.remote [Fixture.july_entry] (Fixture.one_page [])) Fixture.keys 1
  = ([request_of Fixture.keys
        (Create (make_incident_data Fixture.keys Fixture.july_window))],
     Returns tt).
Proof. vm_compute. reflexivity. Qed.

Example main_updates :
  main (net := Fixture.remote [Fixture.july_entry] (Fixture.one_page [Fixture.july_a]))
    Fixture.keys 1
  = ([request_of Fixture.keys
        (Update "abc" (make_incident_data Fixture.keys Fixture.july_window))],
     Returns tt).
Proof. vm_compute. reflexivity. Qed.

Example main_ignores_other_impacts :
  main (net := Fixture.remote [Fixture.july_entry] (Fixture.one_page [Fixture.july_outage]))
    Fixture.keys 1
  = ([request_of Fixture.keys
        (Create (make_incident_data Fixture.keys Fixture.july_window))],
     Returns tt).
Proof. vm_compute. reflexivity. Qed.

Example main_full_first_page :
  main (net := Fixture.remote [Fixture.july_entry] Fixture.full_first_page) Fixture.keys 50
  = ([], Running).
Proof. vm_compute. reflexivity. Qed.

Example main_numeric_zone :
  main (net := Fixture.remote
                 [Fixture.epp_entry "Mon Jul 01 10:00:00 +2 2024"
                                    "Mon Jul 01 12:00:00 +2 2024"]
                 (Fixture.one_page []))
    Fixture.keys 1
  = ([], Raises AttributeError).
Proof. vm_compute. reflexivity. Qed.

(** ** Further properties on the fixture *)

(** X1 on the token [ZZZ]. *)
Lemma get_timezone_name_raises_only_unresolvable_witness :
  ValueError_min = ValueError_min
  /\ existsb (String.eqb "ZZZ") all_timezones = false
  /\ Py.int "ZZZ" = None
  /\ forall name, In name all_timezones ->
       uses_abbreviation "ZZZ" (pytz_timezone name) = false.
Proof.
  apply (@get_timezone_name_raises_only_unresolvable _ _ "ZZZ" ValueError_min).
  reflexivity.
Defined.

(** X2 on the token [cest]. *)
Lemma get_timezone_name_returns_listed_zone_witness :
  exists name,
    In name all_timezones /\ Fixture.CET = pytz_timezone name
    /\ (name = "cest"
        \/ existsb (String.eqb "cest") all_timezones = false
           /\ Py.int "cest" = None
           /\ uses_abbreviation "cest" Fixture.CET = true).
Proof.
  apply (@get_timezone_name_returns_listed_zone _ _ "cest" (TzInfo Fixture.CET)).
  reflexivity.
Defined.

(** X3 on [cest] and [CeSt]. *)
Lemma get_timezone_name_ignores_case_witness :
  get_timezone_name "cest" = get_timezone_name "CeSt".
Proof.
  apply (@get_timezone_name_ignores_case _ _ "cest" "CeSt"); reflexivity.
Defined.

(** X4 on [+2] and [02], and on [2] and [-2]. *)
Lemma numeric_tokens_resolve_by_value_witness :
  (get_timezone_name "+2" = Ok (TzStr ("Etc/GMT" ++ offset_text 2))
   /\ Py.int (offset_text 2) = Some 2
   /\ (get_timezone_name "+2" = get_timezone_name "02" <-> 2 = 2))
  /\ (get_timezone_name "2" = Ok (TzStr ("Etc/GMT" ++ offset_text 2))
      /\ Py.int (offset_text 2) = Some 2
      /\ (get_timezone_name "2" = get_timezone_name "-2" <-> 2 = -2)).
Proof.
  split.
  - apply (@numeric_tokens_resolve_by_value _ _ "+2" "02" 2 2); reflexivity.
  - apply (@numeric_tokens_resolve_by_value _ _ "2" "-2" 2 (-2)); reflexivity.
Defined.

(** X5 on a summer date. *)
Lemma parse_switch_timestamp_Ok_iff_witness :
  parse_switch_timestamp "Mon Jul 01 10:00:00 CEST 2024"
  = Ok {| wall := Fixture.civil 2024 7 1 10 0 0 - 2 * Fixture.hour;
          tzoffset := Some 0 |}.
Proof.
  apply (proj2 (@parse_switch_timestamp_Ok_iff _ _ _
                  "Mon Jul 01 10:00:00 CEST 2024"
                  {| wall := Fixture.civil 2024 7 1 10 0 0 - 2 * Fixture.hour;
                     tzoffset := Some 0 |})).
  exists "CEST", Fixture.CET, (Fixture.civil 2024 7 1 10 0 0), (2 * Fixture.hour).
  repeat split; try reflexivity; vm_compute; discriminate.
Defined.

(** X6 on the fields of a time stamp of the registry. *)
Lemma parse_switch_timestamp_fields_witness :
  Py.index_m2
    (Py.split (Py.join " " (["Mon"; "Jul"; "01"; "10:00:00"] ++ ["CEST"; "2024"])) " ")
  = Ok "CEST"
  /\ new_ts_of (Py.join " " (["Mon"; "Jul"; "01"; "10:00:00"] ++ ["CEST"; "2024"]))
     = Py.join " " (["Mon"; "Jul"; "01"; "10:00:00"] ++ ["2024"])
  /\ parse_switch_timestamp
       (Py.join " " (["Mon"; "Jul"; "01"; "10:00:00"] ++ ["CEST"; "2024"]))
     = (let* actual_tz := get_timezone_name "CEST" in
        let* parsed_ts :=
          call_strptime (Py.join " " (["Mon"; "Jul"; "01"; "10:00:00"] ++ ["2024"]))
            switch_format in
        let* offset := call_utcoffset actual_tz parsed_ts in
        let* shifted := naive_sub parsed_ts offset in
        Ok {| wall := shifted; tzoffset := Some 0 |}).
Proof.
  apply (@parse_switch_timestamp_fields _ _ _
           ["Mon"; "Jul"; "01"; "10:00:00"] "CEST" "2024").
  reflexivity.
Defined.

(** X7 on a notice between two entries of the registry. *)
Lemma get_switch_maintenance_Ok_iff_witness :
  get_switch_maintenance
    (net := Fixture.remote [Fixture.july_entry; Cases.notice] (Fixture.one_page []))
  = Ok [Fixture.july_window]
  <-> Forall2 built_from
        (filter is_data_message [Fixture.july_entry; Cases.notice])
        [Fixture.july_window].
Proof.
  apply (@get_switch_maintenance_Ok_iff _ _ _
           (Fixture.remote [Fixture.july_entry; Cases.notice] (Fixture.one_page []))
           [Fixture.july_entry; Cases.notice] [Fixture.july_window]).
  reflexivity.
Defined.

Example fetch_registry_skips_notice :
  get_switch_maintenance
    (net := Fixture.remote [Cases.notice; Fixture.july_entry] (Fixture.one_page []))
  = Ok [Fixture.july_window].
Proof. vm_compute. reflexivity. Qed.

(** X8 on an entry whose end is no time stamp, after one that parses. *)
Lemma get_switch_maintenance_raises_witness :
  get_switch_maintenance
    (net := Fixture.remote [Fixture.july_entry; Cases.notice; Cases.open_ended]
              (Fixture.one_page []))
  = Raise IndexError.
Proof.
  apply (@get_switch_maintenance_raises _ _ _
           (Fixture.remote [Fixture.july_entry; Cases.notice; Cases.open_ended]
              (Fixture.one_page []))
           [Fixture.july_entry; Cases.notice; Cases.open_ended]
           [Fixture.july_entry] [] Cases.open_ended IndexError).
  - reflexivity.
  - reflexivity.
  - intros b [<-|[]]. split; vm_compute; reflexivity.
  - right. split; vm_compute; reflexivity.
Defined.

(** X9 on the windows of two entries. *)
Lemma get_switch_maintenance_windows_witness :
  (List.length [Fixture.july_window] <= List.length [Fixture.july_entry; Cases.notice])%nat
  /\ forall w, In w [Fixture.july_window] ->
       utc_instant (from_time w) /\ utc_instant (to_time w) /\ systems w <> [].
Proof.
  apply (@get_switch_maintenance_windows _ _ _
           (Fixture.remote [Fixture.july_entry; Cases.notice] (Fixture.one_page []))
           [Fixture.july_entry; Cases.notice] [Fixture.july_window]).
  - reflexivity.
  - vm_compute. reflexivity.
Defined.

(** X10 on a 29th of February, and on a first of July. *)
Lemma get_switch_maintenance_on_leap_day_witness :
  get_switch_maintenance_on
    (net := Fixture.remote [Fixture.july_entry] (Fixture.one_page [])) Cases.leap_day
  = NotSent
  /\ get_switch_maintenance_on
       (net := Fixture.remote [Fixture.july_entry] (Fixture.one_page []))
       Cases.first_of_july
     <> NotSent.
Proof.
  split.
  - apply (proj1 (@get_switch_maintenance_on_leap_day _ _ _
                    (Fixture.remote [Fixture.july_entry] (Fixture.one_page []))
                    Cases.leap_day eq_refl)).
    left. split; reflexivity.
  - intros H.
    apply (proj1 (@get_switch_maintenance_on_leap_day _ _ _
                    (Fixture.remote [Fixture.july_entry] (Fixture.one_page []))
                    Cases.first_of_july eq_refl)) in H.
    destruct H as [[H _]|H]; discriminate H.
Defined.

Example registry_request_dates :
  switch_status_params Cases.first_of_july
  = Some {| param_environment := "production";
            param_start := "01-07-2024"; param_end := "01-07-2025" |}
  /\ switch_status_params Cases.leap_day = None.
Proof. vm_compute. split; reflexivity. Qed.

(** X12 on a status page that refuses creations: the August window is
    refused, and the window after it gets no request. *)
Lemma refused_write_ends_the_run_witness :
  main_loop (net := Cases.refusing_creations) Fixture.keys
    ([Fixture.july_window] ++ Fixture.august_window :: [Fixture.july_window])
    [Fixture.july_a]
  = (map (fun b => make_request Fixture.keys b (last_match b [Fixture.july_a]))
       ([Fixture.july_window] ++ [Fixture.august_window]),
     Raise HTTPError).
Proof.
  apply (@refused_write_ends_the_run _ Cases.refusing_creations Fixture.keys
           [Fixture.july_window] [Fixture.july_window] Fixture.august_window
           [Fixture.july_a] HTTPError).
  - reflexivity.
  - intros b [<-|[]]. reflexivity.
  - reflexivity.
Defined.

(** X13 on an incident without a date, which matters to no window. *)
Lemma unreadable_start_stops_every_write_witness :
  reconcile (net := Fixture.remote [] (Fixture.one_page [])) Fixture.keys
    [Fixture.test_window; Fixture.july_window] [Fixture.july_a; Cases.undated]
  = ([], Raise ValueError_fromisoformat).
Proof.
  apply (proj1 (@unreadable_start_stops_every_write _
                  (Fixture.remote [] (Fixture.one_page [])) Fixture.keys
                  [Fixture.test_window; Fixture.july_window]
                  [Fixture.july_a; Cases.undated])).
  - exists Cases.undated. split; [simpl; auto|]. split; reflexivity.
  - exists Fixture.july_window. split; [simpl; auto | reflexivity].
Defined.

(** X14 on two incidents in either order. *)
Lemma incident_order_matters_only_among_equal_starts_witness :
  reconcile (net := Fixture.remote [] (Fixture.one_page [])) Fixture.keys
    [Fixture.july_window; Fixture.august_window] [Fixture.july_a; Fixture.september]
  = reconcile (net := Fixture.remote [] (Fixture.one_page [])) Fixture.keys
      [Fixture.july_window; Fixture.august_window]
      [Fixture.september; Fixture.july_a; Fixture.september].
Proof.
  apply (@incident_order_matters_only_among_equal_starts _
           (Fixture.remote [] (Fixture.one_page [])) Fixture.keys).
  - intros m. simpl. tauto.
  - intros m1 m2 [<-|[<-|[]]] [<-|[<-|[]]] _ _ H;
      try reflexivity; vm_compute in H; discriminate H.
Defined.

(** With equal starts the order does matter: the last incident wins. *)
Example incident_order_matters_among_equal_starts :
  fst (reconcile (net := Fixture.remote [] (Fixture.one_page [])) Fixture.keys
         [Fixture.july_window] [Fixture.july_a; Fixture.july_b])
  <> fst (reconcile (net := Fixture.remote [] (Fixture.one_page [])) Fixture.keys
            [Fixture.july_window] [Fixture.july_b; Fixture.july_a]).
Proof. vm_compute. discriminate. Qed.

(** X15 on a registry answer with one entry and one notice. *)
Lemma main_writes_after_both_fetches_witness :
  (List.length
     (fst (main (net := Fixture.remote [Fixture.july_entry; Cases.notice]
                          (Fixture.one_page [Fixture.july_a]))
             Fixture.keys 1))
   <= List.length (filter is_data_message [Fixture.july_entry; Cases.notice]))%nat.
Proof.
  apply (proj1 (proj2 (@main_writes_after_both_fetches _ _ _
                         (Fixture.remote [Fixture.july_entry; Cases.notice]
                            (Fixture.one_page [Fixture.july_a]))
                         Fixture.keys 1))).
  reflexivity.
Defined.

Example main_registry_fails :
  main (net := Fixture.remote [Cases.open_ended] (Fixture.one_page [Fixture.july_a]))
    Fixture.keys 1
  = ([], Raises IndexError).
Proof. vm_compute. reflexivity. Qed.

(** X16 on a winter date written with the summer abbreviation. *)
Lemma parse_switch_timestamp_by_zone_witness :
  parse_switch_timestamp
    (Py.join " " (["Mon"; "Jan"; "15"; "10:00:00"] ++ ["CEST"; "2024"]))
  = parse_switch_timestamp
      (Py.join " " (["Mon"; "Jan"; "15"; "10:00:00"] ++ ["CET"; "2024"])).
Proof.
  apply (@parse_switch_timestamp_by_zone _ _ _
           ["Mon"; "Jan"; "15"; "10:00:00"] "CEST" "CET" "2024");
    reflexivity.
Defined.

Example parse_winter_date_with_summer_abbreviation :
  parse_switch_timestamp "Mon Jan 15 10:00:00 CEST 2024"
  = Ok (Fixture.utc 2024 1 15 9 0 0).
Proof. vm_compute. reflexivity. Qed.

(** X17 on the entry of the fixture. *)
Lemma listed_systems_decide_the_filter_witness :
  systems Fixture.july_window = ["epp.nic.ch"; "rdap.nic.ch"]
  /\ (keep_switch Fixture.july_window = true
      <-> dm_environment Fixture.july_entry = "production"
          /\ In "epp.nic.ch" ["epp.nic.ch"; "rdap.nic.ch"]).
Proof.
  apply (@listed_systems_decide_the_filter _ _ _
           Fixture.july_entry Fixture.july_window ["epp.nic.ch"; "rdap.nic.ch"]).
  - repeat split; vm_compute; reflexivity.
  - discriminate.
  - reflexivity.
  - reflexivity.
Defined.

Example systems_need_the_blank :
  Py.split "epp.nic.ch,rdap.nic.ch" ", " = ["epp.nic.ch,rdap.nic.ch"]
  /\ Py.split "" ", " = [""].
Proof. split; reflexivity. Qed.
